(** * Redeem-code bot: the table extraction and memo diffing core

  A shallow embedding of [src/bot.py] and [src/redeem-code.py]: the
  Python builtins and the BeautifulSoup calls the two scripts rely on,
  the process state they read and write (the [CODE_MEMO] set, the memo
  file, the loggers, the chat channel), then the functions of each
  script in a module of its own, and finally the properties of the
  extraction/diff routine. *)

From Stdlib Require Import ZArith Ascii String List Lia Permutation.
From stdpp Require Import base option list sorting gmap strings.


(** ** Python [str] builtins

  A Python [str] is modelled as a Rocq [string] whose characters are the
  code points 0..255.  Strings with a code point above 255 are outside
  the model; among those code points, U+2028 and U+2029 are line
  boundaries of [splitlines] too, and some are whitespace for [strip]. *)
Module Py.

Definition code (c : ascii) : N := N_of_ascii c.

Definition LF : ascii := ascii_of_N 10.

(** [str.isspace] on one character: the code points below 256 that
    Python classifies as whitespace. *)
Definition isspace (c : ascii) : bool :=
  existsb (N.eqb (code c)) [9; 10; 11; 12; 13; 28; 29; 30; 31; 32; 133; 160]%N.

(** The line boundaries of [str.splitlines] below 256: LF, CR, VT, FF,
    FS, GS, RS and NEL ([\x1f] is whitespace but not a boundary). *)
Definition is_linebreak (c : ascii) : bool :=
  existsb (N.eqb (code c)) [10; 11; 12; 13; 28; 29; 30; 133]%N.

Definition is_CR (c : ascii) : bool := (code c =? 13)%N.
Definition is_LF (c : ascii) : bool := (code c =? 10)%N.

Fixpoint lstrip (s : string) : string :=
  match s with
  | EmptyString => EmptyString
  | String c s' => if isspace c then lstrip s' else s
  end.

Fixpoint rstrip (s : string) : string :=
  match s with
  | EmptyString => EmptyString
  | String c s' =>
      match rstrip s' with
      | EmptyString => if isspace c then EmptyString else String c EmptyString
      | r => String c r
      end
  end.

(** [s.strip()] *)
Definition strip (s : string) : string := rstrip (lstrip s).

(** [sep.join(l)] *)
Fixpoint join (sep : string) (l : list string) : string :=
  match l with
  | [] => EmptyString
  | [x] => x
  | x :: xs => x +:+ sep +:+ join sep xs
  end.

(** [s.splitlines()]: [line] is the line being accumulated.  A CR
    directly followed by LF is one boundary; a last line without a
    boundary is kept only when it is not empty. *)
Fixpoint splitlines_from (line s : string) : list string :=
  match s with
  | EmptyString =>
      match line with EmptyString => [] | _ => [line] end
  | String c rest =>
      if is_linebreak c then
        match rest with
        | String c' rest' =>
            if is_CR c && is_LF c'
            then line :: splitlines_from EmptyString rest'
            else line :: splitlines_from EmptyString rest
        | EmptyString => line :: splitlines_from EmptyString rest
        end
      else splitlines_from (line +:+ String c EmptyString) rest
  end.

Definition splitlines (s : string) : list string :=
  splitlines_from EmptyString s.

(** What [file.read()] returns for a file opened in text mode with the
    default [newline=None]: CR LF and a lone CR both read as LF. *)
Fixpoint universal_newlines (s : string) : string :=
  match s with
  | EmptyString => EmptyString
  | String c rest =>
      if is_CR c then
        match rest with
        | String c' rest' =>
            if is_LF c' then String LF (universal_newlines rest')
            else String LF (universal_newlines rest)
        | EmptyString => String LF EmptyString
        end
      else String c (universal_newlines rest)
  end.

(** [sorted(s)] for a set of strings; [String.le] is the lexicographic
    order on code points, the order of [str]. *)
Definition sorted (s : gset string) : list string :=
  merge_sort String.le (elements s).

End Py.

(** ** BeautifulSoup

  The parsed document is a tree of tags and strings.  Only the [class]
  attribute is kept, as the list of its tokens. *)
Module bs4.

#[warnings="-register-all"]
Inductive Node : Type :=
| NavigableString (s : string)
| Tag (name : string) (class_ : list string) (contents : list Node).

(** [tag.descendants]: every node below [n], in document order. *)
Fixpoint descendants (n : Node) : list Node :=
  match n with
  | NavigableString _ => []
  | Tag _ _ contents =>
      (fix below (l : list Node) : list Node :=
         match l with
         | [] => []
         | c :: l' => c :: descendants c ++ below l'
         end) contents
  end.

Definition is_tag (name : string) (n : Node) : bool :=
  match n with
  | NavigableString _ => false
  | Tag name' _ _ => bool_decide (name' = name)
  end.

Definition has_class (cls : string) (n : Node) : bool :=
  match n with
  | NavigableString _ => false
  | Tag _ class_ _ => bool_decide (cls ∈ class_)
  end.

(** [tag.find_all(name=...)].  The call returns a [ResultSet], a list
    that may be empty; it is wrapped in [option] so that the callers'
    [is None] test can be written as it stands in the source. *)
Definition find_all (name : string) (n : Node) : option (list Node) :=
  Some (List.filter (is_tag name) (descendants n)).

(** [tag.find(name=...)]: the first match, or [None]. *)
Definition find (name : string) (n : Node) : option Node :=
  head (List.filter (is_tag name) (descendants n)).

(** [tag.text]: the strings below the tag, concatenated. *)
Fixpoint text (n : Node) : string :=
  match n with
  | NavigableString s => s
  | Tag _ _ contents =>
      (fix below (l : list Node) : string :=
         match l with
         | [] => EmptyString
         | c :: l' => text c +:+ below l'
         end) contents
  end.

(** [soup.select('name.cls')] *)
Definition select (name cls : string) (soup : Node) : list Node :=
  List.filter (fun n => is_tag name n && has_class cls n) (descendants soup).

End bs4.
Export bs4.

(** ** Process state and effects *)

(** The texts handed to the loggers, to [ValueError] and to the chat
    channel.  Each constructor stands for one f-string of the source and
    carries the values the f-string interpolates. *)
Inductive Msg : Type :=
| UnexpectedItems (content : string)
  (* Got unexpected number of items, raw HTML output is {content} *)
| Leftover (n : nat)
  (* Did not exact interval, had {len(chunk)} leftover items *)
| ExpectedRows (table : Node)
  (* Expected 1 + 3*N rows, instead got table output of {table} *)
| InvalidData (table : Node)
  (* Got invalid for data for table {table} *)
| NoToken
  (* Did not provide Discord bot token. *)
| NoChannel
  (* Did not provide Discord channel ID. *)
| Attempting
  (* Attempting to fetch redeem codes. *)
| StartedSession
  (* Started session at daily time of {now}. *)
| Fetched (memo : gset string)
  (* Fetched codes and have current memo of [{memo}] *)
| NewlyAdded (added : list string)
  (* @redeemcodes Newly added redeem codes are: {formatted} *)
| Sending (message : Msg)
  (* Sending channel message of {message}. *)
| Started (memo : gset string)
  (* Started Discord bot with codes of [{memo}] *).

Inductive Exception : Type :=
| ValueError (msg : Msg)
| HTTPError (status_code : Z)
| OtherError (what : string).

(** [LOGGER] is [logging.getLogger('dicord')] of bot.py; [root] is the
    root logger that the module-level [logging.error] of redeem-code.py
    writes to. *)
Inductive Logger : Type := LOGGER | root.
Inductive Level : Type := INFO | ERROR | FATAL.

Record LogRecord : Type :=
  { rec_logger : Logger; rec_level : Level; rec_msg : Msg }.

(** The command line, as far as the modelled functions read it. *)
Record Arguments : Type :=
  { wiki_url : string;
    discord_token : option string;
    discord_channel : option string;
    memo_filename : string }.

(** [CODE_MEMO] is the module-level set object; every [memo] parameter of
    the source is a reference to it.  [files] maps a path to the content
    of the file there. *)
Record World : Type :=
  { CODE_MEMO : gset string;
    files : gmap string string;
    log : list LogRecord;
    sent : list (string * Msg) }.

Inductive Outcome (A : Type) : Type :=
| Return (a : A)
| Raise (e : Exception).
Arguments Return {A} a.
Arguments Raise {A} e.

(** A computation reads and writes the world and returns or raises. *)
Definition M (A : Type) : Type := World -> Outcome A * World.

Definition ret {A} (a : A) : M A := fun w => (Return a, w).

Definition raise {A} (e : Exception) : M A := fun w => (Raise e, w).

Definition bind {A B} (m : M A) (k : A -> M B) : M B :=
  fun w =>
    match m w with
    | (Return a, w') => k a w'
    | (Raise e, w') => (Raise e, w')
    end.

Notation "x <- m ;; k" := (bind m (fun x => k))
  (at level 100, m at next level, right associativity).
Notation "m ;;; k" := (bind m (fun _ => k))
  (at level 100, right associativity).

Definition emit (lg : Logger) (lv : Level) (msg : Msg) : M unit :=
  fun w =>
    (Return tt,
     {| CODE_MEMO := CODE_MEMO w; files := files w;
        log := log w ++ [{| rec_logger := lg; rec_level := lv; rec_msg := msg |}];
        sent := sent w |}).

(** [memo.clear()] *)
Definition memo_clear : M unit :=
  fun w =>
    (Return tt,
     {| CODE_MEMO := ∅; files := files w; log := log w; sent := sent w |}).

(** [memo.update(xs)] *)
Definition memo_update (xs : gset string) : M unit :=
  fun w =>
    (Return tt,
     {| CODE_MEMO := CODE_MEMO w ∪ xs; files := files w; log := log w;
        sent := sent w |}).

(** [x in memo] *)
Definition memo_contains (x : string) : M bool :=
  fun w => (Return (bool_decide (x ∈ CODE_MEMO w)), w).

(** [with open(path, 'w') as file: file.write(content)]; the line
    separator of the platform is LF, so the text is stored as it is.
    The path is taken to be one that can be opened for writing: an
    [open] or [write] that raises is outside the model. *)
Definition write_file (path content : string) : M unit :=
  fun w =>
    (Return tt,
     {| CODE_MEMO := CODE_MEMO w; files := <[path := content]> (files w);
        log := log w; sent := sent w |}).

(** [os.path.exists(path)] *)
Definition path_exists (path : string) : M bool :=
  fun w => (Return (bool_decide (is_Some (files w !! path))), w).

(** [with open(path) as file: file.read()].  A path present in [files] is
    taken to be a readable text file: an [open] or [read] that raises on
    an existing path (a directory, no permission, undecodable bytes) is
    outside the model. *)
Definition read_file (path : string) : M string :=
  fun w =>
    match files w !! path with
    | Some content => (Return (Py.universal_newlines content), w)
    | None => (Raise (OtherError "FileNotFoundError"), w)
    end.

(** [channel.send(message)] *)
Definition channel_send (channel : string) (message : Msg) : M unit :=
  fun w =>
    (Return tt,
     {| CODE_MEMO := CODE_MEMO w; files := files w; log := log w;
        sent := sent w ++ [(channel, message)] |}).

(** A generator: the values it yields and the code that runs after the
    last [yield], which returns (the iteration stops) or raises. *)
Inductive Generator (A : Type) : Type :=
| Yield (a : A) (resume : Generator A)
| Finish (m : M unit).
Arguments Yield {A} a resume.
Arguments Finish {A} m.

(** [for x in g: body], with the loop's local variables as [s]. *)
Fixpoint for_each {A S} (g : Generator A) (body : A -> S -> M S) (s : S) : M S :=
  match g with
  | Yield a resume => s' <- body a s ;; for_each resume body s'
  | Finish m => m ;;; ret s
  end.

(** [list(g)] *)
Definition drain {A} (g : Generator A) : M (list A) :=
  for_each g (fun a acc => ret (acc ++ [a])) [].

(** [requests.Response] *)
Record Response : Type := { status_code : Z; content : string }.

(** [response.raise_for_status()] *)
Definition raise_for_status (r : Response) : M unit :=
  if ((400 <=? status_code r) && (status_code r <? 600))%Z
  then raise (HTTPError (status_code r))
  else ret tt.

(** The collaborators outside the repository: the HTTP session, the HTML
    parser and the chat client.  The parser is taken on pages that it
    accepts: a [BeautifulSoup] call that raises is outside the model. *)
Record Outside : Type :=
  { (* retry_session(retries=5).get(url) *)
    session_get : string -> Outcome Response;
    (* BeautifulSoup(content, 'html.parser') *)
    BeautifulSoup : string -> Node;
    (* await CLIENT.fetch_channel(id) *)
    fetch_channel : option string -> Outcome string }.

Definition lift {A} (o : Outcome A) : M A := fun w => (o, w).

(** ** src/bot.py *)
Module Bot.
Section Bot.

Variable ARGUMENTS : Arguments.
Variable OUTSIDE : Outside.

Definition get_redeem_code_table (url : string) : M Node :=
  response <- lift (session_get OUTSIDE url) ;;
  raise_for_status response ;;;
  let content := content response in
  let soup := BeautifulSoup OUTSIDE content in
  let elements := select "table" "redeemcode" soup in
  if negb (length elements =? 1)%nat then
    let msg := UnexpectedItems content in
    emit LOGGER ERROR msg ;;;
    raise (ValueError msg)
  else
    match elements with
    | e :: _ => ret e
    | [] => raise (OtherError "IndexError")
    end.

Definition get_table_row_text (row : Node) : option (string * string) :=
  match find "th" row with
  | None => None
  | Some header =>
      let header_text := Py.strip (text header) in
      match find "td" row with
      | None => None
      | Some data =>
          let data_text := Py.strip (text data) in
          Some (header_text, data_text)
      end
  end.

(** The generator [chunks_exact], started with the rows still to read and
    the local [chunk] built so far. *)
Fixpoint chunks_exact_from {A} (chunk iterable : list A) (interval : nat)
  : Generator (list A) :=
  match iterable with
  | item :: rest =>
      let chunk := chunk ++ [item] in
      if (length chunk =? interval)%nat
      then Yield chunk (chunks_exact_from [] rest interval)
      else chunks_exact_from chunk rest interval
  | [] =>
      Finish
        match chunk with
        | [] => ret tt
        | _ :: _ =>
            let msg := Leftover (length chunk) in
            emit LOGGER ERROR msg ;;;
            raise (ValueError msg)
        end
  end.

Definition chunks_exact {A} (iterable : list A) (interval : nat)
  : Generator (list A) :=
  chunks_exact_from [] iterable interval.

Definition parse_chunked_rows (chunk : list Node) : gmap string string :=
  fold_left
    (fun data row =>
       match get_table_row_text row with
       | Some row_data => <[row_data.1 := row_data.2]> data
       | None => data
       end)
    chunk ∅.

(** The body of the [for chunk in ...] loop of [get_redeem_codes]; the
    locals it updates are [current] and [added]. *)
Definition get_redeem_codes_body (table : Node) (chunk : list Node)
    (locals : gset string * list string) : M (gset string * list string) :=
  let '(current, added) := locals in
  let code_data := parse_chunked_rows chunk in
  match code_data !! "Code" with
  | None =>
      let message := InvalidData table in
      emit LOGGER ERROR message ;;;
      raise (ValueError message)
  | Some code =>
      let current := current ∪ {[code]} in
      in_memo <- memo_contains code ;;
      if in_memo then ret (current, added)
      else ret (current, added ++ [code])
  end.

Definition get_redeem_codes (table : Node) : M (list string) :=
  let added := [] in
  let current := ∅ in
  match find_all "tr" table with
  | None => ret added
  | Some rows =>
      if negb ((Z.of_nat (length rows) - 1) mod 3 =? 0)%Z then
        let msg := ExpectedRows table in
        emit LOGGER ERROR msg ;;;
        raise (ValueError msg)
      else
        locals <- for_each (chunks_exact (drop 1 rows) 3)
                    (get_redeem_codes_body table) (current, added) ;;
        let '(current, added) := locals in
        memo_clear ;;;
        memo_update current ;;;
        write_file (memo_filename ARGUMENTS)
          (Py.join (String Py.LF EmptyString) (Py.sorted current)) ;;;
        ret added
  end.

Definition fetch_and_send_codes : M unit :=
  emit LOGGER INFO Attempting ;;;
  channel <- lift (fetch_channel OUTSIDE (discord_channel ARGUMENTS)) ;;
  table <- get_redeem_code_table (wiki_url ARGUMENTS) ;;
  added <- get_redeem_codes table ;;
  memo <- (fun w => (Return (CODE_MEMO w), w)) ;;
  emit LOGGER INFO (Fetched memo) ;;;
  match added with
  | [] => ret tt
  | _ :: _ =>
      let message := NewlyAdded added in
      emit LOGGER INFO (Sending message) ;;;
      channel_send channel message
  end.

(** [main] up to the call of [CLIENT.run], which hands control to the
    chat client. *)
Definition main : M unit :=
  match discord_token ARGUMENTS with
  | None =>
      emit LOGGER FATAL NoToken ;;;
      raise (ValueError NoToken)
  | Some _ =>
      match discord_channel ARGUMENTS with
      | None =>
          emit LOGGER FATAL NoChannel ;;;
          raise (ValueError NoChannel)
      | Some _ =>
          present <- path_exists (memo_filename ARGUMENTS) ;;
          (if present then
             data <- read_file (memo_filename ARGUMENTS) ;;
             let redeem_codes := Py.splitlines data in
             memo_update
               (list_to_set
                  (List.filter (fun i => negb (String.eqb i EmptyString))
                     redeem_codes))
           else ret tt) ;;;
          memo <- (fun w => (Return (CODE_MEMO w), w)) ;;
          emit LOGGER INFO (Started memo)
      end
  end.

End Bot.
End Bot.

(** ** src/redeem-code.py *)
Module RedeemCode.
Section RedeemCode.

Variable ARGUMENTS : Arguments.
Variable OUTSIDE : Outside.

Definition get_redeem_code_table (url : string) : M Node :=
  response <- lift (session_get OUTSIDE url) ;;
  raise_for_status response ;;;
  let content := content response in
  let soup := BeautifulSoup OUTSIDE content in
  let elements := select "table" "redeemcode" soup in
  if negb (length elements =? 1)%nat then
    let msg := UnexpectedItems content in
    emit root ERROR msg ;;;
    raise (ValueError msg)
  else
    match elements with
    | e :: _ => ret e
    | [] => raise (OtherError "IndexError")
    end.

Definition get_table_row_text (row : Node) : option (string * string) :=
  match find "th" row with
  | None => None
  | Some header =>
      let header_text := Py.strip (text header) in
      match find "td" row with
      | None => None
      | Some data =>
          let data_text := Py.strip (text data) in
          Some (header_text, data_text)
      end
  end.

(** The generator [chunks_exact], started with the rows still to read and
    the local [chunk] built so far. *)
Fixpoint chunks_exact_from {A} (chunk iterable : list A) (interval : nat)
  : Generator (list A) :=
  match iterable with
  | item :: rest =>
      let chunk := chunk ++ [item] in
      if (length chunk =? interval)%nat
      then Yield chunk (chunks_exact_from [] rest interval)
      else chunks_exact_from chunk rest interval
  | [] =>
      Finish
        match chunk with
        | [] => ret tt
        | _ :: _ =>
            let msg := Leftover (length chunk) in
            emit root ERROR msg ;;;
            raise (ValueError msg)
        end
  end.

Definition chunks_exact {A} (iterable : list A) (interval : nat)
  : Generator (list A) :=
  chunks_exact_from [] iterable interval.

Definition parse_chunked_rows (chunk : list Node) : gmap string string :=
  fold_left
    (fun data row =>
       match get_table_row_text row with
       | Some row_data => <[row_data.1 := row_data.2]> data
       | None => data
       end)
    chunk ∅.

(** The body of the [for chunk in ...] loop of [get_redeem_codes]; the
    locals it updates are [current] and [added]. *)
Definition get_redeem_codes_body (table : Node) (chunk : list Node)
    (locals : gset string * list string) : M (gset string * list string) :=
  let '(current, added) := locals in
  let code_data := parse_chunked_rows chunk in
  match code_data !! "Code" with
  | None =>
      let message := InvalidData table in
      emit root ERROR message ;;;
      raise (ValueError message)
  | Some code =>
      let current := current ∪ {[code]} in
      in_memo <- memo_contains code ;;
      if in_memo then ret (current, added)
      else ret (current, added ++ [code])
  end.

Definition get_redeem_codes (table : Node) : M (list string) :=
  let added := [] in
  let current := ∅ in
  match find_all "tr" table with
  | None => ret added
  | Some rows =>
      if negb ((Z.of_nat (length rows) - 1) mod 3 =? 0)%Z then
        let msg := ExpectedRows table in
        emit root ERROR msg ;;;
        raise (ValueError msg)
      else
        locals <- for_each (chunks_exact (drop 1 rows) 3)
                    (get_redeem_codes_body table) (current, added) ;;
        let '(current, added) := locals in
        memo_clear ;;;
        memo_update current ;;;
        write_file (memo_filename ARGUMENTS)
          (Py.join (String Py.LF EmptyString) (Py.sorted current)) ;;;
        ret added
  end.

Definition fetch_and_send_codes : M unit :=
  emit root INFO StartedSession ;;;
  channel <- lift (fetch_channel OUTSIDE (discord_channel ARGUMENTS)) ;;
  table <- get_redeem_code_table (wiki_url ARGUMENTS) ;;
  added_codes <- get_redeem_codes table ;;
  memo <- (fun w => (Return (CODE_MEMO w), w)) ;;
  emit root INFO (Fetched memo) ;;;
  match added_codes with
  | [] => ret tt
  | _ :: _ =>
      let message := NewlyAdded added_codes in
      emit root INFO (Sending message) ;;;
      channel_send channel message
  end.

(** [main] up to the call of [CLIENT.run], which hands control to the
    chat client. *)
Definition main : M unit :=
  match discord_token ARGUMENTS with
  | None =>
      emit root FATAL NoToken ;;;
      raise (ValueError NoToken)
  | Some _ =>
      match discord_channel ARGUMENTS with
      | None =>
          emit root FATAL NoChannel ;;;
          raise (ValueError NoChannel)
      | Some _ =>
          present <- path_exists (memo_filename ARGUMENTS) ;;
          (if present then
             data <- read_file (memo_filename ARGUMENTS) ;;
             let redeem_codes := Py.splitlines data in
             memo_update
               (list_to_set
                  (List.filter (fun i => negb (String.eqb i EmptyString))
                     redeem_codes))
           else ret tt) ;;;
          memo <- (fun w => (Return (CODE_MEMO w), w)) ;;
          emit root INFO (Started memo)
      end
  end.

End RedeemCode.
End RedeemCode.

(** ** Vocabulary of the properties *)

(** The first [n] consecutive groups of three of a list. *)
Fixpoint groups_of_three {A} (n : nat) (l : list A) : list (list A) :=
  match n with
  | O => []
  | S n' => take 3 l :: groups_of_three n' (drop 3 l)
  end.

(** The 3-row groups of a row list: the rows after the first one, three
    at a time. *)
Definition row_groups (rows : list Node) : list (list Node) :=
  groups_of_three ((length rows - 1) / 3) (drop 1 rows).

(** The Code value a group yields, if its mapping has the key. *)
Definition code_of (group : list Node) : option string :=
  Bot.parse_chunked_rows group !! "Code".

(** The Code values of a table's groups, in row order. *)
Definition extracted_codes (rows : list Node) : list string :=
  omap code_of (row_groups rows).

(** The group contains a row whose header cell text strips to Code. *)
Definition has_code_header (group : list Node) : bool :=
  existsb
    (fun row =>
       match find "th" row with
       | Some header => String.eqb (Py.strip (text header)) "Code"
       | None => false
       end)
    group.

(** The group contains a row with a header cell and a data cell whose
    header cell text strips to Code. *)
Definition has_code_row (group : list Node) : bool :=
  existsb
    (fun row =>
       match find "th" row, find "td" row with
       | Some header, Some _ => String.eqb (Py.strip (text header)) "Code"
       | _, _ => false
       end)
    group.

(** A well-formed row list with [N] code entries: 1 + 3N rows, and in
    every 3-row group a row with a header cell and a data cell whose
    header cell text strips to Code. *)
Definition well_formed (rows : list Node) (N : nat) : Prop :=
  length rows = 1 + 3 * N /\
  Forall (fun g => has_code_row g = true) (row_groups rows).

(** The world after a logger call. *)
Definition logged (lg : Logger) (lv : Level) (msg : Msg) (w : World) : World :=
  {| CODE_MEMO := CODE_MEMO w; files := files w;
     log := log w ++ [{| rec_logger := lg; rec_level := lv; rec_msg := msg |}];
     sent := sent w |}.

(** The world after a successful run of [get_redeem_codes] that
    extracted [codes]. *)
Definition diffed (ARGUMENTS : Arguments) (codes : list string) (w : World) : World :=
  {| CODE_MEMO := list_to_set codes;
     files :=
       <[memo_filename ARGUMENTS :=
           Py.join (String Py.LF EmptyString) (Py.sorted (list_to_set codes))]>
         (files w);
     log := log w; sent := sent w |}.

(** What [get_redeem_codes] does, case by case, with [lg] the logger of
    the script. *)
Definition get_redeem_codes_cases (lg : Logger) (ARGUMENTS : Arguments)
    (table : Node) (w : World) : Outcome (list string) * World :=
  let rows := List.filter (is_tag "tr") (descendants table) in
  if decide ((Z.of_nat (length rows) - 1) mod 3 = 0)%Z then
    if forallb (fun g => bool_decide (is_Some (code_of g))) (row_groups rows) then
      (Return (filter (fun c => c ∉ CODE_MEMO w) (extracted_codes rows)),
       diffed ARGUMENTS (extracted_codes rows) w)
    else
      (Raise (ValueError (InvalidData table)), logged lg ERROR (InvalidData table) w)
  else
    (Raise (ValueError (ExpectedRows table)), logged lg ERROR (ExpectedRows table) w).

(** A new process: [CODE_MEMO = set()], the files as they were left. *)
Definition restart (w : World) : World :=
  {| CODE_MEMO := ∅; files := files w; log := []; sent := [] |}.

(** A code that survives the memo file: not empty and without a line
    boundary. *)
Fixpoint no_linebreak (s : string) : bool :=
  match s with
  | EmptyString => true
  | String c s' => negb (Py.is_linebreak c) && no_linebreak s'
  end.

Definition line_safe (c : string) : bool :=
  negb (String.eqb c EmptyString) && no_linebreak c.

Fixpoint no_CR (s : string) : bool :=
  match s with
  | EmptyString => true
  | String c s' => negb (Py.is_CR c) && no_CR s'
  end.

(** Two worlds that differ at most in which logger took each record. *)
Definition unlogger (r : LogRecord) : Level * Msg := (rec_level r, rec_msg r).

Definition same_but_logger (w1 w2 : World) : Prop :=
  CODE_MEMO w1 = CODE_MEMO w2 /\ files w1 = files w2 /\ sent w1 = sent w2 /\
  map unlogger (log w1) = map unlogger (log w2).

(** ** Sample tables *)
Module Sample.

Definition tr (header data : string) : Node :=
  Tag "tr" []
    [Tag "th" [] [NavigableString header]; Tag "td" [] [NavigableString data]].

(** A row with a header cell only. *)
Definition tr_header_only (header : string) : Node :=
  Tag "tr" [] [Tag "th" [] [NavigableString header]].


Definition heading : Node :=
  Tag "tr" [] [Tag "th" [] [NavigableString "Currently Active Redeem Codes"]].

Definition table (rows : list Node) : Node :=
  Tag "table" ["redeemcode"] [Tag "tbody" [] rows].

Definition entry (code : string) : list Node :=
  [tr "Code" code; tr "Rewards" "Gem x10"; tr "Dates" "Jan 1-31"].

Definition ARGUMENTS : Arguments :=
  {| wiki_url := "https://lovenikki.fandom.com/wiki/Category:Redeem_Code";
     discord_token := Some "token";
     discord_channel := Some "189716987098470";
     memo_filename := "redeem-codes.txt" |}.

Definition world (memo : list string) : World :=
  {| CODE_MEMO := list_to_set memo; files := ∅; log := []; sent := [] |}.

(** A table whose Code row has a header cell and no data cell. *)
Definition header_only_table : Node :=
  table [heading; tr_header_only "Code"; tr "Rewards" "Gem x10";
         tr "Dates" "Jan 1-31"].

(** A table that lists the code ABC in two groups. *)
Definition duplicate_table : Node :=
  table (heading :: entry "ABC" ++ entry "ABC").




(** A wiki that answers 200 with a page whose parse is [soup]. *)
Definition outside (soup : Node) : Outside :=
  {| session_get := fun _ => Return {| status_code := 200; content := "<html>" |};
     BeautifulSoup := fun _ => soup;
     fetch_channel := fun _ => Return "channel" |}.

Definition page (tables : list Node) : Node :=
  Tag "[document]" [] [Tag "html" [] [Tag "body" [] tables]].

Definition response : Response := {| status_code := 200; content := "<html>" |}.

(** A page with two tables of the marker class. *)
Definition two_tables : Outside :=
  outside (page [table (heading :: entry "ABC123"); table [heading]]).

End Sample.

(** ** Vocabulary of the further properties *)

(** The values a generator yields before the code after its last
    [yield] runs. *)
Fixpoint yielded {A} (g : Generator A) : list A :=
  match g with
  | Yield a resume => a :: yielded resume
  | Finish _ => []
  end.

(** The string begins, or ends, with a whitespace character. *)
Definition starts_with_space (s : string) : bool :=
  match s with
  | EmptyString => false
  | String c _ => Py.isspace c
  end.

Fixpoint ends_with_space (s : string) : bool :=
  match s with
  | EmptyString => false
  | String c EmptyString => Py.isspace c
  | String _ s' => ends_with_space s'
  end.

Definition stripped (s : string) : bool :=
  negb (starts_with_space s) && negb (ends_with_space s).

(** The data text of a row when the row is labelled [h]. *)
Definition labelled (h : string) (row : Node) : option string :=
  match Bot.get_table_row_text row with
  | Some row_data => if decide (row_data.1 = h) then Some row_data.2 else None
  | None => None
  end.

(** Two worlds with the same memo, files and channel messages. *)
Definition same_state (w1 w2 : World) : Prop :=
  CODE_MEMO w1 = CODE_MEMO w2 /\ files w1 = files w2 /\ sent w1 = sent w2.

(** Two computations agree when, started in worlds with the same memo,
    files and channel messages, they return the same value or raise the
    same error and end in such worlds again. *)
Definition agree {A} (m1 m2 : M A) : Prop :=
  forall w1 w2, same_state w1 w2 ->
    (m1 w1).1 = (m2 w2).1 /\ same_state (m1 w1).2 (m2 w2).2.

(** The codes that [main] loads from the text of a memo file. *)
Definition loaded_codes (data : string) : gset string :=
  list_to_set
    (List.filter (fun i => negb (String.eqb i EmptyString)) (Py.splitlines data)).

(** A wiki that answers every request with status 503. *)
Definition unavailable_wiki : Outside :=
  {| session_get := fun _ => Return {| status_code := 503; content := "busy" |};
     BeautifulSoup := fun _ => Sample.page [];
     fetch_channel := fun _ => Return "channel" |}.

(** A world whose memo file holds [data]. *)
Definition world_with_file (ARGUMENTS : Arguments) (data : string) : World :=
  {| CODE_MEMO := ∅; files := {[ memo_filename ARGUMENTS := data ]};
     log := []; sent := [] |}.

(** The separators of the lines of a text file: LF, and CR LF. *)
Definition LF_sep : string := String Py.LF EmptyString.
Definition CRLF_sep : string := String (ascii_of_N 13) (String Py.LF EmptyString).

(** The message a cycle sends for the list [added]: none when the list is
    empty. *)
Definition announcement (channel : string) (added : list string)
  : list (string * Msg) :=
  match added with
  | [] => []
  | _ :: _ => [(channel, NewlyAdded added)]
  end.

(** ** The row groups *)

Lemma groups_of_three_concat {A} (n : nat) (l : list A) :
  length l = 3 * n -> concat (groups_of_three n l) = l.
Proof.
  revert l. induction n as [|n IH]; intros l Hl; simpl.
  - destruct l; [done | simpl in Hl; lia].
  - rewrite IH.
    + apply take_drop.
    + rewrite length_drop. lia.
Qed.

Lemma groups_of_three_length {A} (n : nat) (l : list A) :
  length l = 3 * n -> Forall (fun g => length g = 3) (groups_of_three n l).
Proof.
  revert l. induction n as [|n IH]; intros l Hl; simpl; constructor.
  - rewrite length_take. lia.
  - apply IH. rewrite length_drop. lia.
Qed.

Lemma rows_count (rows : list Node) :
  ((Z.of_nat (length rows) - 1) mod 3 = 0)%Z ->
  length (drop 1 rows) = 3 * ((length rows - 1) / 3).
Proof.
  intros Hm. rewrite length_drop.
  destruct rows as [|r rows]; [vm_compute in Hm; discriminate|].
  simpl length in *.
  replace (Z.of_nat (S (length rows)) - 1)%Z with (Z.of_nat (length rows)) in Hm by lia.
  replace (S (length rows) - 1) with (length rows) by lia.
  assert (Hn : (length rows) mod 3 = 0).
  { apply Nat2Z.inj. rewrite Nat2Z.inj_mod. exact Hm. }
  pose proof (Nat.div_mod_eq (length rows) 3). lia.
Qed.

Lemma rows_count_of (rows : list Node) (N : nat) :
  length rows = 1 + 3 * N -> ((Z.of_nat (length rows) - 1) mod 3 = 0)%Z.
Proof.
  intros ->. replace (Z.of_nat (1 + 3 * N) - 1)%Z with (Z.of_nat N * 3)%Z by lia.
  apply Z_mod_mult.
Qed.

Lemma row_groups_concat (rows : list Node) :
  ((Z.of_nat (length rows) - 1) mod 3 = 0)%Z ->
  concat (row_groups rows) = drop 1 rows.
Proof. intros Hm. apply groups_of_three_concat, rows_count, Hm. Qed.

Lemma row_groups_length (rows : list Node) :
  ((Z.of_nat (length rows) - 1) mod 3 = 0)%Z ->
  Forall (fun g => length g = 3) (row_groups rows).
Proof. intros Hm. apply groups_of_three_length, rows_count, Hm. Qed.

(** ** The loop of [get_redeem_codes] *)

Ltac run := unfold bind, ret, raise, emit, memo_contains, memo_clear,
  memo_update, write_file, lift, logged; simpl.

Lemma bot_chunk (a b c : Node) (rest : list Node) :
  Bot.chunks_exact_from [] (a :: b :: c :: rest) 3
  = Yield [a; b; c] (Bot.chunks_exact_from [] rest 3).
Proof. reflexivity. Qed.

Lemma redeem_chunk (a b c : Node) (rest : list Node) :
  RedeemCode.chunks_exact_from [] (a :: b :: c :: rest) 3
  = Yield [a; b; c] (RedeemCode.chunks_exact_from [] rest 3).
Proof. reflexivity. Qed.

Lemma redeem_parse (chunk : list Node) :
  RedeemCode.parse_chunked_rows chunk = Bot.parse_chunked_rows chunk.
Proof. reflexivity. Qed.

Lemma omap_cons {A B} (f : A -> option B) (x : A) (l : list A) :
  omap f (x :: l)
  = match f x with Some y => y :: omap f l | None => omap f l end.
Proof. reflexivity. Qed.

Lemma bot_body (table : Node) (chunk : list Node) (current : gset string)
    (added : list string) (w : World) :
  Bot.get_redeem_codes_body table chunk (current, added) w
  = match code_of chunk with
    | Some code =>
        (Return (current ∪ {[code]},
                 added ++ filter (fun c => c ∉ CODE_MEMO w) [code]), w)
    | None =>
        (Raise (ValueError (InvalidData table)),
         logged LOGGER ERROR (InvalidData table) w)
    end.
Proof.
  unfold Bot.get_redeem_codes_body, code_of.
  destruct (Bot.parse_chunked_rows chunk !! "Code") as [code|]; [|by run].
  run. rewrite filter_cons, filter_nil.
  destruct (decide (code ∉ CODE_MEMO w)) as [Hnew|Hold].
  - by rewrite bool_decide_eq_false_2.
  - rewrite bool_decide_eq_true_2 by (by apply dec_stable). by rewrite app_nil_r.
Qed.

Lemma redeem_body (table : Node) (chunk : list Node) (current : gset string)
    (added : list string) (w : World) :
  RedeemCode.get_redeem_codes_body table chunk (current, added) w
  = match code_of chunk with
    | Some code =>
        (Return (current ∪ {[code]},
                 added ++ filter (fun c => c ∉ CODE_MEMO w) [code]), w)
    | None =>
        (Raise (ValueError (InvalidData table)),
         logged root ERROR (InvalidData table) w)
    end.
Proof.
  unfold RedeemCode.get_redeem_codes_body, code_of.
  rewrite redeem_parse.
  destruct (Bot.parse_chunked_rows chunk !! "Code") as [code|]; [|by run].
  run. rewrite filter_cons, filter_nil.
  destruct (decide (code ∉ CODE_MEMO w)) as [Hnew|Hold].
  - by rewrite bool_decide_eq_false_2.
  - rewrite bool_decide_eq_true_2 by (by apply dec_stable). by rewrite app_nil_r.
Qed.

(** One proof script for the loops of both scripts: induction on the
    groups, one iteration per group. *)
Ltac loop_by_groups chunk_eq body_eq :=
  intros table groups;
  induction groups as [|g groups IH]; intros current added w Hlen;
  [ simpl; run; by rewrite (right_id_L ∅ (∪)), app_nil_r
  | inversion Hlen as [|? ? Hg Hrest]; subst;
    destruct g as [|a [|b [|c [|? ?]]]]; try discriminate Hg;
    change (concat ([a; b; c] :: groups)) with (a :: b :: c :: concat groups);
    rewrite chunk_eq;
    cbn [for_each forallb omap];
    unfold bind at 1; rewrite body_eq;
    destruct (code_of [a; b; c]) as [code|] eqn:Hcode;
    [ rewrite bool_decide_eq_true_2 by eauto; cbn [andb];
      rewrite IH by done;
      destruct (forallb _ groups); [|done];
      cbn [list_to_set foldr];
      rewrite (omap_cons code_of), Hcode;
      cbn [list_to_set foldr];
      change (code :: omap code_of groups) with ([code] ++ omap code_of groups);
      rewrite (filter_app _ [code]), <- (assoc_L (∪)), <- app_assoc; done
    | rewrite bool_decide_eq_false_2 by (by intros [? ?]); by cbn [andb] ] ].

Lemma bot_loop :
  forall (table : Node) (groups : list (list Node))
         (current : gset string) (added : list string) (w : World),
  Forall (fun g => length g = 3) groups ->
  for_each (Bot.chunks_exact_from [] (concat groups) 3)
    (Bot.get_redeem_codes_body table) (current, added) w
  = if forallb (fun g => bool_decide (is_Some (code_of g))) groups then
      (Return (current ∪ list_to_set (omap code_of groups),
               added ++ filter (fun c => c ∉ CODE_MEMO w) (omap code_of groups)), w)
    else
      (Raise (ValueError (InvalidData table)), logged LOGGER ERROR (InvalidData table) w).
Proof. loop_by_groups bot_chunk bot_body. Qed.

Lemma redeem_loop :
  forall (table : Node) (groups : list (list Node))
         (current : gset string) (added : list string) (w : World),
  Forall (fun g => length g = 3) groups ->
  for_each (RedeemCode.chunks_exact_from [] (concat groups) 3)
    (RedeemCode.get_redeem_codes_body table) (current, added) w
  = if forallb (fun g => bool_decide (is_Some (code_of g))) groups then
      (Return (current ∪ list_to_set (omap code_of groups),
               added ++ filter (fun c => c ∉ CODE_MEMO w) (omap code_of groups)), w)
    else
      (Raise (ValueError (InvalidData table)), logged root ERROR (InvalidData table) w).
Proof. loop_by_groups redeem_chunk redeem_body. Qed.

(** ** [get_redeem_codes], case by case *)

Ltac cases_by_loop loop_eq :=
  intros ARGUMENTS table w;
  unfold Bot.get_redeem_codes, RedeemCode.get_redeem_codes,
    get_redeem_codes_cases, find_all;
  set (rows := List.filter (is_tag "tr") (descendants table));
  destruct (decide ((Z.of_nat (length rows) - 1) mod 3 = 0)%Z) as [Hm|Hm];
  [ rewrite (proj2 (Z.eqb_eq _ _) Hm); cbn [negb];
    unfold bind at 1;
    unfold Bot.chunks_exact, RedeemCode.chunks_exact;
    rewrite <- (row_groups_concat rows Hm);
    rewrite loop_eq by (by apply row_groups_length);
    fold (extracted_codes rows);
    destruct (forallb _ (row_groups rows)); [|done];
    run; unfold diffed; by rewrite !(left_id_L ∅ (∪))
  | rewrite (proj2 (Z.eqb_neq _ _) Hm); cbn [negb]; by run ].

Lemma bot_cases :
  forall (ARGUMENTS : Arguments) (table : Node) (w : World),
  Bot.get_redeem_codes ARGUMENTS table w
  = get_redeem_codes_cases LOGGER ARGUMENTS table w.
Proof. cases_by_loop bot_loop. Qed.

Lemma redeem_cases :
  forall (ARGUMENTS : Arguments) (table : Node) (w : World),
  RedeemCode.get_redeem_codes ARGUMENTS table w
  = get_redeem_codes_cases root ARGUMENTS table w.
Proof. cases_by_loop redeem_loop. Qed.

(** ** The memo file: written sorted and newline-joined, read back by
    lines *)

Lemma app_cons (c : ascii) (s t : string) :
  String c s +:+ t = String c (s +:+ t).
Proof. reflexivity. Qed.

Lemma app_empty_l (s : string) : EmptyString +:+ s = s.
Proof. reflexivity. Qed.

Lemma app_empty_r (s : string) : s +:+ EmptyString = s.
Proof. induction s as [|c s IH]; [done|]. by rewrite app_cons, IH. Qed.

Lemma app_snoc (line : string) (c : ascii) (s : string) :
  (line +:+ String c EmptyString) +:+ s = line +:+ String c s.
Proof. induction line as [|d line IH]; [done|]. by rewrite !app_cons, IH. Qed.

Lemma splitlines_from_app (x line s : string) :
  no_linebreak x = true ->
  Py.splitlines_from line (x +:+ s) = Py.splitlines_from (line +:+ x) s.
Proof.
  revert line. induction x as [|c x IH]; intros line Hx.
  - by rewrite app_empty_r.
  - simpl in Hx. apply andb_prop in Hx as [Hc Hx].
    apply negb_true_iff in Hc.
    rewrite app_cons. cbn [Py.splitlines_from]. rewrite Hc.
    rewrite IH by done. by rewrite app_snoc.
Qed.

Lemma splitlines_from_LF (line s : string) :
  Py.splitlines_from line (String Py.LF s)
  = line :: Py.splitlines_from EmptyString s.
Proof. by destruct s. Qed.


Lemma no_linebreak_no_CR (s : string) : no_linebreak s = true -> no_CR s = true.
Proof.
  induction s as [|c s IH]; [done|]. simpl.
  intros [Hc Hs]%andb_prop. rewrite IH by done.
  apply negb_true_iff in Hc. rewrite andb_true_r. apply negb_true_iff.
  unfold Py.is_linebreak in Hc. unfold Py.is_CR.
  destruct (Py.code c =? 13)%N eqn:E; [|done].
  apply N.eqb_eq in E. rewrite E in Hc. discriminate Hc.
Qed.

Lemma no_CR_app (s t : string) :
  no_CR s = true -> no_CR t = true -> no_CR (s +:+ t) = true.
Proof.
  induction s as [|c s IH]; [done|]. rewrite app_cons. simpl.
  intros [Hc Hs]%andb_prop Ht. by rewrite Hc, IH.
Qed.

Lemma no_CR_join (l : list string) :
  Forall (fun c => no_CR c = true) l ->
  no_CR (Py.join (String Py.LF EmptyString) l) = true.
Proof.
  induction l as [|x l IH]; intros Hl; [done|].
  inversion Hl; subst. destruct l as [|y l]; [done|].
  change (Py.join (String Py.LF EmptyString) (x :: y :: l))
    with (x +:+ String Py.LF EmptyString
            +:+ Py.join (String Py.LF EmptyString) (y :: l)).
  apply no_CR_app; [done|]. rewrite app_cons. simpl. by apply IH.
Qed.

Lemma universal_newlines_id (s : string) :
  no_CR s = true -> Py.universal_newlines s = s.
Proof.
  induction s as [|c s IH]; [done|]. simpl.
  intros [Hc Hs]%andb_prop. apply negb_true_iff in Hc.
  by rewrite Hc, IH.
Qed.



Lemma sorted_elem (s : gset string) (c : string) : c ∈ Py.sorted s <-> c ∈ s.
Proof.
  unfold Py.sorted. rewrite (merge_sort_Permutation String.le (elements s)).
  apply elem_of_elements.
Qed.


(** ** Which groups yield a Code *)

Lemma row_text_code (row : Node) :
  (exists d, Bot.get_table_row_text row = Some ("Code", d))
  <-> match find "th" row, find "td" row with
      | Some header, Some _ => String.eqb (Py.strip (text header)) "Code"
      | _, _ => false
      end = true.
Proof.
  unfold Bot.get_table_row_text.
  destruct (find "th" row) as [header|]; [|split; [by intros [? ?]|done]].
  destruct (find "td" row) as [data|]; [|split; [by intros [? ?]|done]].
  rewrite String.eqb_eq. split.
  - intros [d Hd]. by inversion Hd.
  - intros ->. eauto.
Qed.

Lemma parse_is_Some (chunk : list Node) (data : gmap string string) :
  is_Some
    (fold_left
       (fun data row =>
          match Bot.get_table_row_text row with
          | Some row_data => <[row_data.1 := row_data.2]> data
          | None => data
          end)
       chunk data !! "Code")
  <-> is_Some (data !! "Code") \/ has_code_row chunk = true.
Proof.
  revert data. induction chunk as [|row chunk IH]; intros data.
  - simpl. split; [auto|]. by intros [?|?].
  - cbn [fold_left has_code_row existsb]. rewrite IH, orb_true_iff.
    rewrite <- row_text_code.
    destruct (Bot.get_table_row_text row) as [[h d]|] eqn:Hrow.
    + cbn [fst snd]. destruct (decide (h = "Code")) as [->|Hne].
      * rewrite lookup_insert_eq. split; [|eauto]. intros _. right. left. eauto.
      * rewrite lookup_insert_ne by done. split.
        -- intros [?|?]; auto.
        -- intros [?|[[d' Hd']|?]]; auto. congruence.
    + split.
      * intros [?|?]; auto.
      * intros [?|[[d' Hd']|?]]; auto. discriminate.
Qed.

Lemma has_code_row_code_of (group : list Node) :
  has_code_row group = true <-> is_Some (code_of group).
Proof.
  unfold code_of, Bot.parse_chunked_rows. rewrite parse_is_Some.
  rewrite lookup_empty. split; [auto|]. intros [[? ?]|?]; done.
Qed.

Lemma groups_all_code (groups : list (list Node)) :
  Forall (fun g => has_code_row g = true) groups ->
  forallb (fun g => bool_decide (is_Some (code_of g))) groups = true.
Proof.
  intros H. apply forallb_forall. intros g Hg.
  apply bool_decide_eq_true_2, has_code_row_code_of.
  rewrite List.Forall_forall in H. by apply H.
Qed.

Lemma groups_some_without_code (groups : list (list Node)) (g : list Node) :
  g ∈ groups -> code_of g = None ->
  forallb (fun g => bool_decide (is_Some (code_of g))) groups = false.
Proof.
  intros Hin Hnone. apply not_true_is_false. intros Hall.
  rewrite forallb_forall in Hall.
  specialize (Hall g (proj1 (list_elem_of_In _ _) Hin)).
  apply bool_decide_eq_true_1 in Hall. rewrite Hnone in Hall.
  by destruct Hall.
Qed.

Lemma groups_of_three_count {A} (n : nat) (l : list A) :
  length (groups_of_three n l) = n.
Proof. revert l. induction n as [|n IH]; intros l; simpl; by rewrite ?IH. Qed.

Lemma omap_all_length {A B} (f : A -> option B) (l : list A) :
  forallb (fun x => bool_decide (is_Some (f x))) l = true ->
  length (omap f l) = length l.
Proof.
  induction l as [|x l IH]; [done|]. cbn [forallb].
  intros [Hx Hl]%andb_prop. rewrite omap_cons.
  apply bool_decide_eq_true_1 in Hx as [y ->]. simpl. by rewrite IH.
Qed.

(** A well-formed table: the run succeeds, with the result and the final
    world spelled out. *)
Lemma well_formed_run (lg : Logger) (ARGUMENTS : Arguments) (table : Node)
    (rows : list Node) (N : nat) (w : World) :
  find_all "tr" table = Some rows ->
  length rows = 1 + 3 * N ->
  Forall (fun g => has_code_row g = true) (row_groups rows) ->
  get_redeem_codes_cases lg ARGUMENTS table w
  = (Return (filter (fun c => c ∉ CODE_MEMO w) (extracted_codes rows)),
     diffed ARGUMENTS (extracted_codes rows) w).
Proof.
  intros Hrows Hlen Hcode. unfold find_all in Hrows. inversion Hrows as [Hr].
  unfold get_redeem_codes_cases. rewrite Hr.
  rewrite decide_True by (by eapply rows_count_of).
  by rewrite groups_all_code.
Qed.

Lemma filter_new_set (codes : list string) (memo : gset string) :
  list_to_set (filter (fun c => c ∉ memo) codes)
  = (list_to_set codes : gset string) ∖ memo.
Proof.
  apply set_eq. intros c.
  rewrite elem_of_difference, !elem_of_list_to_set, list_elem_of_filter.
  tauto.
Qed.

(** ** Properties of [get_redeem_codes] *)

(** C1, as stated, fails: the group of this table contains a row whose
    header cell text strips to Code, but that row has no data cell, so
    the group's mapping has no Code key and [get_redeem_codes] raises
    instead of returning an added list. *)
Lemma code_header_without_data_raises :
  exists rows,
    find_all "tr" Sample.header_only_table = Some rows /\
    length rows = 1 + 3 * 1 /\
    Forall (fun g => has_code_header g = true) (row_groups rows) /\
    forall added w',
      Bot.get_redeem_codes Sample.ARGUMENTS Sample.header_only_table (Sample.world [])
      <> (Return added, w').
Proof.
  eexists. split; [reflexivity|]. split; [reflexivity|]. split.
  - repeat constructor.
  - intros added w'. vm_compute. discriminate.
Qed.

(** C1, amended: for every table with N code entries (row list of length
    1 + 3N, every 3-row group containing a row that has a header cell and
    a data cell and whose header cell text strips to Code) and every
    prior memo, [get_redeem_codes] of both scripts returns an added list
    whose set is the extracted Code values minus the memo before the
    call, and leaves the memo equal to the set of extracted Code
    values. *)
Theorem added_is_extracted_minus_memo (ARGUMENTS : Arguments) (table : Node)
    (rows : list Node) (N : nat) (w : World) :
  find_all "tr" table = Some rows ->
  length rows = 1 + 3 * N ->
  Forall (fun g => has_code_row g = true) (row_groups rows) ->
  exists added w',
    Bot.get_redeem_codes ARGUMENTS table w = (Return added, w') /\
    RedeemCode.get_redeem_codes ARGUMENTS table w = (Return added, w') /\
    length (extracted_codes rows) = N /\
    (list_to_set added : gset string)
    = list_to_set (extracted_codes rows) ∖ CODE_MEMO w /\
    CODE_MEMO w' = list_to_set (extracted_codes rows).
Proof.
  intros Hrows Hlen Hcode.
  exists (filter (fun c => c ∉ CODE_MEMO w) (extracted_codes rows)),
    (diffed ARGUMENTS (extracted_codes rows) w).
  rewrite bot_cases, redeem_cases.
  rewrite !(well_formed_run _ ARGUMENTS table rows N w) by done.
  repeat split.
  - unfold extracted_codes. rewrite omap_all_length by (by apply groups_all_code).
    unfold row_groups. rewrite groups_of_three_count, Hlen.
    replace (1 + 3 * N - 1) with (N * 3) by lia. by apply Nat.div_mul.
  - apply filter_new_set.
Qed.

Lemma added_is_extracted_minus_memo_witness :
  exists added w',
    Bot.get_redeem_codes Sample.ARGUMENTS
      (Sample.table (Sample.heading :: Sample.entry "ABC123" ++ Sample.entry "XYZ789"))
      (Sample.world ["XYZ789"; "OLD000"]) = (Return added, w') /\
    RedeemCode.get_redeem_codes Sample.ARGUMENTS
      (Sample.table (Sample.heading :: Sample.entry "ABC123" ++ Sample.entry "XYZ789"))
      (Sample.world ["XYZ789"; "OLD000"]) = (Return added, w') /\
    length
      (extracted_codes (Sample.heading :: Sample.entry "ABC123" ++ Sample.entry "XYZ789"))
    = 2 /\
    (list_to_set added : gset string)
    = list_to_set
        (extracted_codes (Sample.heading :: Sample.entry "ABC123" ++ Sample.entry "XYZ789"))
      ∖ CODE_MEMO (Sample.world ["XYZ789"; "OLD000"]) /\
    CODE_MEMO w'
    = list_to_set
        (extracted_codes (Sample.heading :: Sample.entry "ABC123" ++ Sample.entry "XYZ789")).
Proof.
  apply (added_is_extracted_minus_memo Sample.ARGUMENTS
           (Sample.table (Sample.heading :: Sample.entry "ABC123" ++ Sample.entry "XYZ789"))
           (Sample.heading :: Sample.entry "ABC123" ++ Sample.entry "XYZ789") 2
           (Sample.world ["XYZ789"; "OLD000"])).
  - reflexivity.
  - reflexivity.
  - repeat constructor.
Defined.

Lemma count_occ_filter (P : string -> Prop) `{!forall c, Decision (P c)}
    (l : list string) (c : string) :
  P c -> count_occ string_dec (filter P l) c = count_occ string_dec l c.
Proof.
  intros Hc. induction l as [|x l IH]; [done|].
  rewrite filter_cons. destruct (decide (P x)) as [Hx|Hx]; simpl.
  - destruct (string_dec x c); by rewrite IH.
  - destruct (string_dec x c) as [->|]; [done|exact IH].
Qed.

Lemma sorted_count (s : gset string) (c : string) :
  c ∈ s -> count_occ string_dec (Py.sorted s) c = 1.
Proof.
  intros Hc.
  assert (Hnd : List.NoDup (Py.sorted s)).
  { apply NoDup_ListNoDup. unfold Py.sorted.
    rewrite (merge_sort_Permutation String.le (elements s)).
    apply NoDup_elements. }
  apply (proj1 (NoDup_count_occ' string_dec _) Hnd).
  by apply list_elem_of_In, sorted_elem.
Qed.

Lemma diffed_file (ARGUMENTS : Arguments) (codes : list string) (w : World) :
  files (diffed ARGUMENTS codes w) !! memo_filename ARGUMENTS
  = Some (Py.join (String Py.LF EmptyString)
            (Py.sorted (CODE_MEMO (diffed ARGUMENTS codes w)))).
Proof. unfold diffed. simpl. apply lookup_insert_eq. Qed.

(** C2, as stated, fails: ABC occurs in both groups of this table and is
    not in the memo; the returned added list holds it twice, not only at
    its first occurrence. *)
Lemma duplicate_code_is_added_twice :
  exists rows,
    find_all "tr" Sample.duplicate_table = Some rows /\
    well_formed rows 2 /\
    ("ABC" ∉ CODE_MEMO (Sample.world [])) /\
    count_occ string_dec (extracted_codes rows) "ABC" = 2 /\
    (Bot.get_redeem_codes Sample.ARGUMENTS Sample.duplicate_table (Sample.world [])).1
    = Return ["ABC"; "ABC"] /\
    ~ (exists added w',
         Bot.get_redeem_codes Sample.ARGUMENTS Sample.duplicate_table (Sample.world [])
         = (Return added, w') /\
         count_occ string_dec added "ABC" = 1).
Proof.
  eexists. split; [reflexivity|].
  split; [split; [reflexivity|repeat constructor]|]. split; [set_solver|].
  split; [reflexivity|]. split; [reflexivity|].
  intros (added & w' & Hrun & Hcount).
  assert (Hadded : (Bot.get_redeem_codes Sample.ARGUMENTS Sample.duplicate_table
                      (Sample.world [])).1 = Return added) by (by rewrite Hrun).
  vm_compute in Hadded. inversion Hadded; subst. discriminate Hcount.
Qed.

(** C2, amended: for every well-formed table and every Code value that is
    absent from the memo before the call, every occurrence of that value
    lands in the returned added list (it is listed as many times as
    groups carry it), while the memo after the call contains it and the
    persisted file lists it exactly once. *)
Theorem duplicate_code_added_per_occurrence (ARGUMENTS : Arguments)
    (table : Node) (rows : list Node) (N : nat) (w : World) (c : string) :
  find_all "tr" table = Some rows ->
  well_formed rows N ->
  c ∉ CODE_MEMO w ->
  c ∈ extracted_codes rows ->
  exists added w',
    Bot.get_redeem_codes ARGUMENTS table w = (Return added, w') /\
    count_occ string_dec added c = count_occ string_dec (extracted_codes rows) c /\
    c ∈ CODE_MEMO w' /\
    files w' !! memo_filename ARGUMENTS
    = Some (Py.join (String Py.LF EmptyString) (Py.sorted (CODE_MEMO w'))) /\
    count_occ string_dec (Py.sorted (CODE_MEMO w')) c = 1.
Proof.
  intros Hrows [Hlen Hcode] Hnew Hin.
  exists (filter (fun c => c ∉ CODE_MEMO w) (extracted_codes rows)),
    (diffed ARGUMENTS (extracted_codes rows) w).
  rewrite bot_cases, (well_formed_run _ ARGUMENTS table rows N w) by done.
  assert (Hmemo : c ∈ CODE_MEMO (diffed ARGUMENTS (extracted_codes rows) w)).
  { simpl. by apply elem_of_list_to_set. }
  split; [done|]. split; [by apply count_occ_filter|]. split; [done|].
  split; [apply diffed_file|by apply sorted_count].
Qed.

Lemma duplicate_code_added_per_occurrence_witness :
  exists added w',
    Bot.get_redeem_codes Sample.ARGUMENTS
      (Sample.table (Sample.heading :: Sample.entry "ABC" ++ Sample.entry "ABC"))
      (Sample.world ["OLD"]) = (Return added, w') /\
    count_occ string_dec added "ABC"
    = count_occ string_dec
        (extracted_codes (Sample.heading :: Sample.entry "ABC" ++ Sample.entry "ABC"))
        "ABC" /\
    "ABC" ∈ CODE_MEMO w' /\
    files w' !! memo_filename Sample.ARGUMENTS
    = Some (Py.join (String Py.LF EmptyString) (Py.sorted (CODE_MEMO w'))) /\
    count_occ string_dec (Py.sorted (CODE_MEMO w')) "ABC" = 1.
Proof.
  apply (duplicate_code_added_per_occurrence Sample.ARGUMENTS
           (Sample.table (Sample.heading :: Sample.entry "ABC" ++ Sample.entry "ABC"))
           (Sample.heading :: Sample.entry "ABC" ++ Sample.entry "ABC") 2
           (Sample.world ["OLD"]) "ABC").
  - reflexivity.
  - split; [reflexivity|repeat constructor].
  - apply (bool_decide_unpack _). vm_compute. exact I.
  - apply (bool_decide_unpack _). vm_compute. exact I.
Defined.

Lemma filter_none (P : string -> Prop) `{!forall c, Decision (P c)}
    (l : list string) :
  (forall c, c ∈ l -> ~ P c) -> filter P l = [].
Proof.
  induction l as [|x l IH]; intros Hl; [done|].
  rewrite filter_cons, decide_False by (apply Hl; left).
  apply IH. intros c Hc. apply Hl. by right.
Qed.

(** C3: for every well-formed table and every starting memo, the first
    call of [get_redeem_codes] returns, and a second call with the same
    table, started with the memo the first call left, returns the empty
    added list. *)
Theorem second_call_adds_nothing (ARGUMENTS : Arguments) (table : Node)
    (rows : list Node) (N : nat) (w : World) :
  find_all "tr" table = Some rows ->
  well_formed rows N ->
  exists added w1,
    Bot.get_redeem_codes ARGUMENTS table w = (Return added, w1) /\
    forall w1', CODE_MEMO w1' = CODE_MEMO w1 ->
      exists w2, Bot.get_redeem_codes ARGUMENTS table w1' = (Return [], w2).
Proof.
  intros Hrows [Hlen Hcode].
  exists (filter (fun c => c ∉ CODE_MEMO w) (extracted_codes rows)),
    (diffed ARGUMENTS (extracted_codes rows) w).
  rewrite bot_cases, (well_formed_run _ ARGUMENTS table rows N w) by done.
  split; [done|]. intros w1' Hmemo.
  exists (diffed ARGUMENTS (extracted_codes rows) w1').
  rewrite bot_cases, (well_formed_run _ ARGUMENTS table rows N w1') by done.
  rewrite filter_none; [done|].
  intros c Hc Hnot. apply Hnot. rewrite Hmemo. simpl.
  by apply elem_of_list_to_set.
Qed.

Lemma second_call_adds_nothing_witness :
  exists added w1,
    Bot.get_redeem_codes Sample.ARGUMENTS
      (Sample.table (Sample.heading :: Sample.entry "ABC123"))
      (Sample.world []) = (Return added, w1) /\
    forall w1', CODE_MEMO w1' = CODE_MEMO w1 ->
      exists w2,
        Bot.get_redeem_codes Sample.ARGUMENTS
          (Sample.table (Sample.heading :: Sample.entry "ABC123")) w1'
        = (Return [], w2).
Proof.
  apply (second_call_adds_nothing Sample.ARGUMENTS
           (Sample.table (Sample.heading :: Sample.entry "ABC123"))
           (Sample.heading :: Sample.entry "ABC123") 1 (Sample.world [])).
  - reflexivity.
  - split; [reflexivity|repeat constructor].
Defined.

(** C4: for every table whose row count minus one is not divisible by
    three, [get_redeem_codes] raises the row-count [ValueError], and the
    memo set and the files are as they were before the call. *)
Theorem row_count_error_keeps_memo (ARGUMENTS : Arguments) (table : Node)
    (rows : list Node) (w : World) :
  find_all "tr" table = Some rows ->
  ((Z.of_nat (length rows) - 1) mod 3 <> 0)%Z ->
  exists w',
    Bot.get_redeem_codes ARGUMENTS table w
    = (Raise (ValueError (ExpectedRows table)), w') /\
    CODE_MEMO w' = CODE_MEMO w /\
    files w' = files w.
Proof.
  intros Hrows Hm. unfold find_all in Hrows. inversion Hrows as [Hr].
  exists (logged LOGGER ERROR (ExpectedRows table) w).
  rewrite bot_cases. unfold get_redeem_codes_cases.
  rewrite Hr. by rewrite decide_False.
Qed.

Lemma row_count_error_keeps_memo_witness :
  exists w',
    Bot.get_redeem_codes Sample.ARGUMENTS
      (Sample.table
         (Sample.heading :: Sample.entry "ABC123" ++ [Sample.tr "Code" "XYZ789"]))
      (Sample.world ["OLD000"])
    = (Raise
         (ValueError
            (ExpectedRows
               (Sample.table
                  (Sample.heading :: Sample.entry "ABC123"
                     ++ [Sample.tr "Code" "XYZ789"])))), w') /\
    CODE_MEMO w' = CODE_MEMO (Sample.world ["OLD000"]) /\
    files w' = files (Sample.world ["OLD000"]).
Proof.
  apply (row_count_error_keeps_memo Sample.ARGUMENTS
           (Sample.table
              (Sample.heading :: Sample.entry "ABC123" ++ [Sample.tr "Code" "XYZ789"]))
           (Sample.heading :: Sample.entry "ABC123" ++ [Sample.tr "Code" "XYZ789"])
           (Sample.world ["OLD000"])).
  - reflexivity.
  - vm_compute. discriminate.
Defined.

(** C5: for every table with 1 + 3N rows in which the mapping extracted
    from some 3-row group has no Code key, [get_redeem_codes] raises the
    invalid-data [ValueError], and the memo set and the files are as they
    were before the call, whatever the other groups hold. *)
Theorem missing_code_error_keeps_memo (ARGUMENTS : Arguments) (table : Node)
    (rows : list Node) (N : nat) (w : World) (group : list Node) :
  find_all "tr" table = Some rows ->
  length rows = 1 + 3 * N ->
  group ∈ row_groups rows ->
  Bot.parse_chunked_rows group !! "Code" = None ->
  exists w',
    Bot.get_redeem_codes ARGUMENTS table w
    = (Raise (ValueError (InvalidData table)), w') /\
    CODE_MEMO w' = CODE_MEMO w /\
    files w' = files w.
Proof.
  intros Hrows Hlen Hin Hnone. unfold find_all in Hrows. inversion Hrows as [Hr].
  exists (logged LOGGER ERROR (InvalidData table) w).
  rewrite bot_cases. unfold get_redeem_codes_cases. rewrite Hr.
  rewrite decide_True by (by eapply rows_count_of).
  by rewrite (groups_some_without_code _ group).
Qed.

Lemma missing_code_error_keeps_memo_witness :
  exists w',
    Bot.get_redeem_codes Sample.ARGUMENTS
      (Sample.table
         (Sample.heading :: Sample.entry "ABC123"
            ++ [Sample.tr "Rewards" "Gem x10"; Sample.tr "Dates" "Jan 1-31";
                Sample.tr "Notes" "none"]))
      (Sample.world ["OLD000"])
    = (Raise
         (ValueError
            (InvalidData
               (Sample.table
                  (Sample.heading :: Sample.entry "ABC123"
                     ++ [Sample.tr "Rewards" "Gem x10"; Sample.tr "Dates" "Jan 1-31";
                         Sample.tr "Notes" "none"])))), w') /\
    CODE_MEMO w' = CODE_MEMO (Sample.world ["OLD000"]) /\
    files w' = files (Sample.world ["OLD000"]).
Proof.
  apply (missing_code_error_keeps_memo Sample.ARGUMENTS
           (Sample.table
              (Sample.heading :: Sample.entry "ABC123"
                 ++ [Sample.tr "Rewards" "Gem x10"; Sample.tr "Dates" "Jan 1-31";
                     Sample.tr "Notes" "none"]))
           (Sample.heading :: Sample.entry "ABC123"
              ++ [Sample.tr "Rewards" "Gem x10"; Sample.tr "Dates" "Jan 1-31";
                  Sample.tr "Notes" "none"])
           2 (Sample.world ["OLD000"])
           [Sample.tr "Rewards" "Gem x10"; Sample.tr "Dates" "Jan 1-31";
            Sample.tr "Notes" "none"]).
  - reflexivity.
  - reflexivity.
  - right. left.
  - reflexivity.
Defined.

(** C8: for every well-formed table, the returned added list is the list
    of extracted Code values, in the order of the 3-row groups after the
    first row, with the values that the memo held before the call left
    out; it is not sorted. *)
Theorem added_in_row_order (ARGUMENTS : Arguments) (table : Node)
    (rows : list Node) (N : nat) (w : World) :
  find_all "tr" table = Some rows ->
  well_formed rows N ->
  exists w',
    Bot.get_redeem_codes ARGUMENTS table w
    = (Return (filter (fun c => c ∉ CODE_MEMO w) (omap code_of (row_groups rows))),
       w').
Proof.
  intros Hrows [Hlen Hcode].
  exists (diffed ARGUMENTS (extracted_codes rows) w).
  by rewrite bot_cases, (well_formed_run _ ARGUMENTS table rows N w).
Qed.

Lemma added_in_row_order_witness :
  exists w',
    Bot.get_redeem_codes Sample.ARGUMENTS
      (Sample.table
         (Sample.heading :: Sample.entry "ZZZ" ++ Sample.entry "MMM"
            ++ Sample.entry "AAA"))
      (Sample.world ["MMM"])
    = (Return ["ZZZ"; "AAA"], w').
Proof.
  apply (added_in_row_order Sample.ARGUMENTS
           (Sample.table
              (Sample.heading :: Sample.entry "ZZZ" ++ Sample.entry "MMM"
                 ++ Sample.entry "AAA"))
           (Sample.heading :: Sample.entry "ZZZ" ++ Sample.entry "MMM"
              ++ Sample.entry "AAA")
           3 (Sample.world ["MMM"])).
  - reflexivity.
  - split; [reflexivity|repeat constructor].
Defined.

(** C10: for a table whose row list is empty, [get_redeem_codes] raises
    the row-count [ValueError] (the test computes (0 - 1) mod 3 = 2) and
    leaves the memo set and the files unchanged; and the branch for
    [rows is None] is never taken: [find_all] never yields [None], and
    every normal return of [get_redeem_codes] has written the memo file,
    which that branch does not do. *)
Theorem empty_row_list_raises (ARGUMENTS : Arguments) (table : Node) (w : World) :
  find_all "tr" table = Some [] ->
  ((Z.of_nat (length (@nil Node)) - 1) mod 3 = 2)%Z /\
  (exists w',
     Bot.get_redeem_codes ARGUMENTS table w
     = (Raise (ValueError (ExpectedRows table)), w') /\
     CODE_MEMO w' = CODE_MEMO w /\
     files w' = files w) /\
  (forall name t, find_all name t <> None) /\
  (forall t w0 added w',
     Bot.get_redeem_codes ARGUMENTS t w0 = (Return added, w') ->
     files w' !! memo_filename ARGUMENTS
     = Some (Py.join (String Py.LF EmptyString) (Py.sorted (CODE_MEMO w')))).
Proof.
  intros Hrows. split; [reflexivity|]. split; [|split].
  - unfold find_all in Hrows. inversion Hrows as [Hr].
    exists (logged LOGGER ERROR (ExpectedRows table) w).
    rewrite bot_cases. unfold get_redeem_codes_cases. by rewrite Hr.
  - intros name t. unfold find_all. discriminate.
  - intros t w0 added w'. rewrite bot_cases. unfold get_redeem_codes_cases.
    destruct (decide _); [|discriminate].
    destruct (forallb _ _); [|discriminate].
    intros Hret. inversion Hret; subst. apply diffed_file.
Qed.

Lemma empty_row_list_raises_witness :
  ((Z.of_nat (length (@nil Node)) - 1) mod 3 = 2)%Z /\
  (exists w',
     Bot.get_redeem_codes Sample.ARGUMENTS (Sample.table []) (Sample.world ["OLD000"])
     = (Raise (ValueError (ExpectedRows (Sample.table []))), w') /\
     CODE_MEMO w' = CODE_MEMO (Sample.world ["OLD000"]) /\
     files w' = files (Sample.world ["OLD000"])) /\
  (forall name t, find_all name t <> None) /\
  (forall t w0 added w',
     Bot.get_redeem_codes Sample.ARGUMENTS t w0 = (Return added, w') ->
     files w' !! memo_filename Sample.ARGUMENTS
     = Some (Py.join (String Py.LF EmptyString) (Py.sorted (CODE_MEMO w')))).
Proof.
  apply (empty_row_list_raises Sample.ARGUMENTS (Sample.table [])
           (Sample.world ["OLD000"])).
  reflexivity.
Defined.

(** ** The two scripts side by side *)

Lemma same_but_logger_refl (w : World) : same_but_logger w w.
Proof. by repeat split. Qed.

Lemma same_but_logger_logged (lv : Level) (msg : Msg) (w : World) :
  same_but_logger (logged LOGGER lv msg w) (logged root lv msg w).
Proof. repeat split. simpl. by rewrite !map_app. Qed.

Lemma chunks_exact_from_agree {A} (iterable chunk : list A) (interval : nat)
    (acc : list (list A)) (w : World) :
  let b := for_each (Bot.chunks_exact_from chunk iterable interval)
             (fun a acc => ret (acc ++ [a])) acc w in
  let r := for_each (RedeemCode.chunks_exact_from chunk iterable interval)
             (fun a acc => ret (acc ++ [a])) acc w in
  b.1 = r.1 /\ same_but_logger b.2 r.2.
Proof.
  revert chunk acc. induction iterable as [|item rest IH]; intros chunk acc.
  - destruct chunk as [|c chunk]; simpl; run.
    + split; [done|apply same_but_logger_refl].
    + split; [done|]. apply (same_but_logger_logged ERROR _ w).
  - simpl. destruct (length (chunk ++ [item]) =? interval)%nat.
    + cbn [for_each]. run. apply IH.
    + apply IH.
Qed.

(** C9: for every table and world, [get_redeem_codes] of bot.py and of
    redeem-code.py return the same added list or raise the same error and
    leave the same memo and the same files (their worlds differ at most
    in the logger that took the error record); their helpers
    [get_table_row_text] and [parse_chunked_rows] are equal, and their
    [chunks_exact] generators yield the same chunks and fail alike. *)
Theorem scripts_agree (ARGUMENTS : Arguments) (table : Node) (w : World) :
  (Bot.get_redeem_codes ARGUMENTS table w).1
  = (RedeemCode.get_redeem_codes ARGUMENTS table w).1 /\
  same_but_logger (Bot.get_redeem_codes ARGUMENTS table w).2
    (RedeemCode.get_redeem_codes ARGUMENTS table w).2 /\
  (forall row, Bot.get_table_row_text row = RedeemCode.get_table_row_text row) /\
  (forall chunk, Bot.parse_chunked_rows chunk = RedeemCode.parse_chunked_rows chunk) /\
  (forall (iterable : list Node) (interval : nat) (w0 : World),
     (drain (Bot.chunks_exact iterable interval) w0).1
     = (drain (RedeemCode.chunks_exact iterable interval) w0).1 /\
     same_but_logger (drain (Bot.chunks_exact iterable interval) w0).2
       (drain (RedeemCode.chunks_exact iterable interval) w0).2).
Proof.
  rewrite bot_cases, redeem_cases. unfold get_redeem_codes_cases.
  repeat split; try done.
  - destruct (decide _); [destruct (forallb _ _)|]; done.
  - by destruct (decide _); [destruct (forallb _ _)|].
  - by destruct (decide _); [destruct (forallb _ _)|].
  - by destruct (decide _); [destruct (forallb _ _)|].
  - destruct (decide _); [destruct (forallb _ _)|]; simpl; by rewrite ?map_app.
  - apply chunks_exact_from_agree.
  - apply (chunks_exact_from_agree iterable [] interval [] w0).
  - apply (chunks_exact_from_agree iterable [] interval [] w0).
  - apply (chunks_exact_from_agree iterable [] interval [] w0).
  - apply (chunks_exact_from_agree iterable [] interval [] w0).
Qed.

(** ** The table parser and the cycle *)

Lemma raise_for_status_ok (r : Response) (w : World) :
  ~ (400 <= status_code r < 600)%Z -> raise_for_status r w = (Return tt, w).
Proof.
  intros Hs. unfold raise_for_status.
  destruct (400 <=? status_code r)%Z eqn:H1;
    destruct (status_code r <? 600)%Z eqn:H2; try done.
  apply Z.leb_le in H1. apply Z.ltb_lt in H2. lia.
Qed.

Lemma table_parser_run (OUTSIDE : Outside) (url : string) (r : Response) (w : World) :
  session_get OUTSIDE url = Return r ->
  ~ (400 <= status_code r < 600)%Z ->
  Bot.get_redeem_code_table OUTSIDE url w
  = match select "table" "redeemcode" (BeautifulSoup OUTSIDE (content r)) with
    | [t] => (Return t, w)
    | _ =>
        (Raise (ValueError (UnexpectedItems (content r))),
         logged LOGGER ERROR (UnexpectedItems (content r)) w)
    end.
Proof.
  intros Hget Hs. unfold Bot.get_redeem_code_table.
  unfold bind at 1. unfold lift. rewrite Hget.
  unfold bind at 1. rewrite raise_for_status_ok by done.
  destruct (select _ _ _) as [|t [|t' l]]; by run.
Qed.

(** C7: once the page is fetched, the table parser returns a table
    exactly when one element of the page matches [table.redeemcode], and
    then returns that element; with no match or several it raises the
    [ValueError], and the cycle [fetch_and_send_codes] stops with that
    error before [get_redeem_codes]: the memo set, the files and the
    channel are untouched and the log gains only the start record and
    the parser's error record. *)
Theorem parser_needs_exactly_one_table (ARGUMENTS : Arguments) (OUTSIDE : Outside)
    (r : Response) (w : World) :
  session_get OUTSIDE (wiki_url ARGUMENTS) = Return r ->
  ~ (400 <= status_code r < 600)%Z ->
  let elements := select "table" "redeemcode" (BeautifulSoup OUTSIDE (content r)) in
  ((exists t w', Bot.get_redeem_code_table OUTSIDE (wiki_url ARGUMENTS) w = (Return t, w'))
   <-> length elements = 1) /\
  (forall t, elements = [t] ->
     Bot.get_redeem_code_table OUTSIDE (wiki_url ARGUMENTS) w = (Return t, w)) /\
  (length elements <> 1 ->
     Bot.get_redeem_code_table OUTSIDE (wiki_url ARGUMENTS) w
     = (Raise (ValueError (UnexpectedItems (content r))),
        logged LOGGER ERROR (UnexpectedItems (content r)) w) /\
     forall channel,
       fetch_channel OUTSIDE (discord_channel ARGUMENTS) = Return channel ->
       Bot.fetch_and_send_codes ARGUMENTS OUTSIDE w
       = (Raise (ValueError (UnexpectedItems (content r))),
          logged LOGGER ERROR (UnexpectedItems (content r))
            (logged LOGGER INFO Attempting w))).
Proof.
  intros Hget Hs elements.
  pose proof (table_parser_run OUTSIDE (wiki_url ARGUMENTS) r) as Hrun.
  split; [|split].
  - rewrite (Hrun w) by done. fold elements.
    destruct elements as [|t [|t' l]]; split; try done.
    + by intros (? & ? & ?).
    + eauto.
    + by intros (? & ? & ?).
  - intros t Ht. rewrite (Hrun w) by done. fold elements. by rewrite Ht.
  - intros Hn.
    assert (Hfail : forall w0,
      Bot.get_redeem_code_table OUTSIDE (wiki_url ARGUMENTS) w0
      = (Raise (ValueError (UnexpectedItems (content r))),
         logged LOGGER ERROR (UnexpectedItems (content r)) w0)).
    { intros w0. rewrite (Hrun w0) by done. fold elements.
      by destruct elements as [|t [|t' l]]. }
    split; [apply Hfail|].
    intros channel Hch. unfold Bot.fetch_and_send_codes.
    unfold bind at 1. cbn [emit]. fold (logged LOGGER INFO Attempting w).
    unfold bind at 1. unfold lift. rewrite Hch.
    unfold bind at 1. by rewrite Hfail.
Qed.

Lemma parser_needs_exactly_one_table_witness :
  ((exists t w',
      Bot.get_redeem_code_table Sample.two_tables (wiki_url Sample.ARGUMENTS)
        (Sample.world ["OLD000"]) = (Return t, w'))
   <-> length
         (select "table" "redeemcode"
            (BeautifulSoup Sample.two_tables (content Sample.response))) = 1) /\
  (forall t,
     select "table" "redeemcode"
       (BeautifulSoup Sample.two_tables (content Sample.response)) = [t] ->
     Bot.get_redeem_code_table Sample.two_tables (wiki_url Sample.ARGUMENTS)
       (Sample.world ["OLD000"]) = (Return t, Sample.world ["OLD000"])) /\
  (length
     (select "table" "redeemcode"
        (BeautifulSoup Sample.two_tables (content Sample.response))) <> 1 ->
     Bot.get_redeem_code_table Sample.two_tables (wiki_url Sample.ARGUMENTS)
       (Sample.world ["OLD000"])
     = (Raise (ValueError (UnexpectedItems (content Sample.response))),
        logged LOGGER ERROR (UnexpectedItems (content Sample.response))
          (Sample.world ["OLD000"])) /\
     forall channel,
       fetch_channel Sample.two_tables (discord_channel Sample.ARGUMENTS)
       = Return channel ->
       Bot.fetch_and_send_codes Sample.ARGUMENTS Sample.two_tables
         (Sample.world ["OLD000"])
       = (Raise (ValueError (UnexpectedItems (content Sample.response))),
          logged LOGGER ERROR (UnexpectedItems (content Sample.response))
            (logged LOGGER INFO Attempting (Sample.world ["OLD000"])))).
Proof.
  apply (parser_needs_exactly_one_table Sample.ARGUMENTS Sample.two_tables
           Sample.response (Sample.world ["OLD000"])).
  - reflexivity.
  - simpl. lia.
Defined.

(** With two matching tables the cycle fails and the memo stays. *)
Example cycle_with_two_tables :
  Bot.fetch_and_send_codes Sample.ARGUMENTS Sample.two_tables (Sample.world ["OLD000"])
  = (Raise (ValueError (UnexpectedItems "<html>")),
     {| CODE_MEMO := list_to_set ["OLD000"]; files := ∅;
        log := [ {| rec_logger := LOGGER; rec_level := INFO; rec_msg := Attempting |};
                 {| rec_logger := LOGGER; rec_level := ERROR;
                    rec_msg := UnexpectedItems "<html>" |} ];
        sent := [] |}).
Proof. reflexivity. Qed.

Example parser_one_table :
  Bot.get_redeem_code_table
    (Sample.outside (Sample.page [Sample.table (Sample.heading :: Sample.entry "ABC123")]))
    (wiki_url Sample.ARGUMENTS) (Sample.world [])
  = (Return (Sample.table (Sample.heading :: Sample.entry "ABC123")), Sample.world []).
Proof. reflexivity. Qed.

Example cycle_sends_new_codes :
  sent
    (Bot.fetch_and_send_codes Sample.ARGUMENTS
       (Sample.outside
          (Sample.page [Sample.table (Sample.heading :: Sample.entry "ABC123")]))
       (Sample.world [])).2
  = [("channel", NewlyAdded ["ABC123"])].
Proof. reflexivity. Qed.

(** ** The memo file across a restart *)


Lemma main_reloads (ARGUMENTS : Arguments) (w : World) (data : string) :
  is_Some (discord_token ARGUMENTS) ->
  is_Some (discord_channel ARGUMENTS) ->
  files w !! memo_filename ARGUMENTS = Some data ->
  exists w',
    Bot.main ARGUMENTS (restart w) = (Return tt, w') /\
    CODE_MEMO w'
    = list_to_set
        (List.filter (fun i => negb (String.eqb i EmptyString))
           (Py.splitlines (Py.universal_newlines data))).
Proof.
  intros [token Htoken] [channel Hchannel] Hfile.
  unfold Bot.main. rewrite Htoken, Hchannel.
  unfold bind at 1. unfold path_exists, restart at 1 2. cbn [files].
  rewrite bool_decide_eq_true_2 by eauto.
  unfold bind at 1. unfold bind at 1. unfold read_file, restart at 1 2.
  cbn [files]. rewrite Hfile. run.
  eexists. split; [reflexivity|]. simpl. by rewrite (left_id_L ∅ (∪)).
Qed.




(** The same codes in another table order, from another memo: the same
    memo set and the same file. *)
Example memo_file_any_order :
  let first :=
    (Bot.get_redeem_codes Sample.ARGUMENTS
       (Sample.table (Sample.heading :: Sample.entry "ZZZ" ++ Sample.entry "AAA"))
       (Sample.world [])).2 in
  let second :=
    (Bot.get_redeem_codes Sample.ARGUMENTS
       (Sample.table (Sample.heading :: Sample.entry "AAA" ++ Sample.entry "ZZZ"))
       (Sample.world ["AAA"; "OLD000"])).2 in
  CODE_MEMO first = CODE_MEMO second /\
  files first !! "redeem-codes.txt" = files second !! "redeem-codes.txt" /\
  files first !! "redeem-codes.txt"
  = Some (Py.join (String Py.LF EmptyString) ["AAA"; "ZZZ"]).
Proof.
  repeat split; apply (bool_decide_unpack _); vm_compute; exact I.
Qed.

(** The restriction of C6 is the least one: whatever the file holds, the
    codes that [main] loads are not empty and hold no line boundary, so a
    memo with any other code cannot be read back. *)
Lemma no_linebreak_snoc (line : string) (c : ascii) :
  no_linebreak line = true -> Py.is_linebreak c = false ->
  no_linebreak (line +:+ String c EmptyString) = true.
Proof.
  intros Hl Hc. induction line as [|d line IH]; simpl.
  - by rewrite Hc.
  - simpl in Hl. apply andb_prop in Hl as [-> Hl]. by apply IH.
Qed.

Lemma splitlines_from_cons (line : string) (c : ascii) (rest : string) :
  Py.splitlines_from line (String c rest)
  = if Py.is_linebreak c then
      match rest with
      | String c' rest' =>
          if Py.is_CR c && Py.is_LF c'
          then line :: Py.splitlines_from EmptyString rest'
          else line :: Py.splitlines_from EmptyString rest
      | EmptyString => line :: Py.splitlines_from EmptyString rest
      end
    else Py.splitlines_from (line +:+ String c EmptyString) rest.
Proof. reflexivity. Qed.

Lemma splitlines_from_no_linebreak (s : string) :
  (forall line, no_linebreak line = true ->
     Forall (fun l => no_linebreak l = true) (Py.splitlines_from line s)) /\
  (forall c line, no_linebreak line = true ->
     Forall (fun l => no_linebreak l = true) (Py.splitlines_from line (String c s))).
Proof.
  induction s as [|d s [IH1 IH2]].
  - split.
    + intros [|? ?] Hl; simpl; auto.
    + intros c line Hl. simpl.
      destruct (Py.is_linebreak c) eqn:Hc; [by repeat constructor|].
      pose proof (no_linebreak_snoc line c Hl Hc) as Hs. revert Hs.
      destruct (line +:+ String c EmptyString); intros Hs; by repeat constructor.
  - split; [by apply IH2|].
    intros c line Hl. rewrite splitlines_from_cons.
    destruct (Py.is_linebreak c) eqn:Hc.
    + destruct (Py.is_CR c && Py.is_LF d); constructor; auto.
    + apply IH2. by apply no_linebreak_snoc.
Qed.

Lemma reloaded_codes_line_safe (ARGUMENTS : Arguments) (w w' : World) (c : string) :
  is_Some (discord_token ARGUMENTS) ->
  is_Some (discord_channel ARGUMENTS) ->
  Bot.main ARGUMENTS (restart w) = (Return tt, w') ->
  c ∈ CODE_MEMO w' -> line_safe c = true.
Proof.
  intros Htoken Hchannel Hmain Hc.
  destruct (files w !! memo_filename ARGUMENTS) as [data|] eqn:Hfile.
  - destruct (main_reloads ARGUMENTS w data Htoken Hchannel Hfile)
      as (w2 & Hmain2 & Hmemo).
    rewrite Hmain in Hmain2. inversion Hmain2; subst w2.
    rewrite Hmemo in Hc. apply elem_of_list_to_set, list_elem_of_In in Hc.
    apply filter_In in Hc as [Hin Hne]. unfold line_safe. rewrite Hne. simpl.
    pose proof (proj1 (splitlines_from_no_linebreak (Py.universal_newlines data))
                  EmptyString eq_refl) as Hall.
    rewrite List.Forall_forall in Hall. by apply Hall.
  - destruct Htoken as [token Htoken], Hchannel as [channel Hchannel].
    revert Hmain. unfold Bot.main. rewrite Htoken, Hchannel.
    unfold bind at 1. unfold path_exists, restart at 1 2. cbn [files].
    rewrite Hfile, bool_decide_eq_false_2 by (by intros [? ?]).
    run. intros Hmain. inversion Hmain; subst w'. simpl in Hc. set_solver.
Qed.

(** ** [chunks_exact] on any list and interval *)

Lemma chunks_exact_from_flush {A} (g chunk rest : list A) (n : nat) :
  g <> [] -> length chunk + length g = n ->
  Bot.chunks_exact_from chunk (g ++ rest) n
  = Yield (chunk ++ g) (Bot.chunks_exact_from [] rest n).
Proof.
  revert chunk. induction g as [|item g IH]; intros chunk Hne Hlen; [done|].
  cbn [app Bot.chunks_exact_from]. simpl in Hlen.
  destruct g as [|item' g].
  - rewrite (proj2 (Nat.eqb_eq _ _)) by (rewrite length_app; simpl in *; lia).
    done.
  - rewrite (proj2 (Nat.eqb_neq _ _)) by (rewrite length_app; simpl in *; lia).
    rewrite IH; [|done|rewrite length_app; simpl in *; lia].
    by rewrite <- app_assoc.
Qed.

Lemma chunks_exact_from_rest {A} (g chunk : list A) (n : nat) :
  length chunk + length g < n ->
  Bot.chunks_exact_from chunk g n
  = Finish
      match chunk ++ g with
      | [] => ret tt
      | _ :: _ =>
          emit LOGGER ERROR (Leftover (length (chunk ++ g))) ;;;
          raise (ValueError (Leftover (length (chunk ++ g))))
      end.
Proof.
  revert chunk. induction g as [|item g IH]; intros chunk Hlen.
  - rewrite app_nil_r. by destruct chunk.
  - cbn [Bot.chunks_exact_from]. simpl in Hlen.
    rewrite (proj2 (Nat.eqb_neq _ _)) by (rewrite length_app; simpl; lia).
    rewrite IH by (rewrite length_app; simpl; lia).
    by rewrite <- app_assoc.
Qed.

Lemma chunks_exact_split {A} (chunks : list (list A)) (rest : list A) (n : nat) :
  0 < n -> Forall (fun c => length c = n) chunks -> length rest < n ->
  yielded (Bot.chunks_exact (concat chunks ++ rest) n) = chunks /\
  forall acc w,
    for_each (Bot.chunks_exact (concat chunks ++ rest) n)
      (fun a acc => ret (acc ++ [a])) acc w
    = match rest with
      | [] => (Return (acc ++ chunks), w)
      | _ :: _ =>
          (Raise (ValueError (Leftover (length rest))),
           logged LOGGER ERROR (Leftover (length rest)) w)
      end.
Proof.
  intros Hn Hall Hrest. unfold Bot.chunks_exact.
  induction Hall as [|c chunks Hc Hall IH].
  - simpl. rewrite chunks_exact_from_rest by (simpl; lia). simpl. split; [done|].
    intros acc w. destruct rest; run; by rewrite ?app_nil_r.
  - cbn [concat]. rewrite <- app_assoc.
    rewrite chunks_exact_from_flush; [|destruct c; simpl in *; [lia|done]|simpl; lia].
    destruct IH as [IHy IHd]. cbn [yielded app]. rewrite IHy. split; [done|].
    intros acc w. cbn [for_each]. unfold bind at 1. unfold ret at 1.
    rewrite IHd. destruct rest; [|done]. by rewrite <- app_assoc.
Qed.

Lemma list_split_chunks {A} (n : nat) (l : list A) :
  0 < n ->
  exists chunks rest,
    l = concat chunks ++ rest /\
    Forall (fun c => length c = n) chunks /\
    length rest < n.
Proof.
  intros Hn. remember (length l) as k eqn:Hk. revert l Hk.
  induction k as [k IH] using lt_wf_ind. intros l Hk.
  destruct (decide (length l < n)) as [Hlt|Hge].
  - exists [], l. by repeat split.
  - destruct (IH (length (drop n l))) with (l := drop n l)
      as (chunks & rest & Heq & Hall & Hrest); [rewrite length_drop; lia|done|].
    exists (take n l :: chunks), rest. repeat split; [|constructor|]; try done.
    + cbn [concat]. by rewrite <- app_assoc, <- Heq, take_drop.
    + rewrite length_take. lia.
Qed.

Lemma concat_length_chunks {A} (chunks : list (list A)) (n : nat) :
  Forall (fun c => length c = n) chunks ->
  length (concat chunks) = n * length chunks.
Proof.
  induction 1 as [|c chunks Hc Hall IH]; simpl; [lia|].
  rewrite length_app, IH, Hc. lia.
Qed.

(** X1: with a positive interval that divides the length of the list,
    [list(chunks_exact(l, n))] returns chunks of exactly [n] items each
    whose concatenation is the list, and touches nothing. *)
Theorem chunks_exact_partitions {A} (l : list A) (n : nat) (w : World) :
  0 < n -> length l mod n = 0 ->
  exists chunks,
    drain (Bot.chunks_exact l n) w = (Return chunks, w) /\
    concat chunks = l /\
    Forall (fun c => length c = n) chunks /\
    length chunks = length l / n.
Proof.
  intros Hn Hmod.
  destruct (list_split_chunks n l Hn) as (chunks & rest & Heq & Hall & Hrest).
  pose proof (concat_length_chunks chunks n Hall) as Hlen.
  assert (Hl : length l = n * length chunks + length rest).
  { by rewrite Heq, length_app, Hlen. }
  assert (Hr : length rest = 0).
  { rewrite Hl, Nat.add_comm, Nat.mul_comm, Nat.Div0.mod_add in Hmod.
    by rewrite Nat.mod_small in Hmod. }
  destruct rest; [|done]. rewrite app_nil_r in Heq.
  exists chunks. unfold drain.
  destruct (chunks_exact_split chunks [] n Hn Hall Hrest) as [_ Hd].
  rewrite app_nil_r in Hd. rewrite Heq, Hd. repeat split; try done.
  rewrite Hlen, Nat.mul_comm. by rewrite Nat.div_mul by lia.
Qed.

Lemma chunks_exact_partitions_witness :
  exists chunks,
    drain (Bot.chunks_exact [1; 2; 3; 4; 5; 6] 2) (Sample.world [])
    = (Return chunks, Sample.world []) /\
    concat chunks = [1; 2; 3; 4; 5; 6] /\
    Forall (fun c => length c = 2) chunks /\
    length chunks = length [1; 2; 3; 4; 5; 6] / 2.
Proof.
  apply (chunks_exact_partitions [1; 2; 3; 4; 5; 6] 2 (Sample.world [])).
  - lia.
  - reflexivity.
Defined.

(** X2: with a positive interval that does not divide the length of the
    list, [chunks_exact] first yields every full chunk, in order, and then
    logs and raises the [ValueError] that reports the number of leftover
    items, the length modulo the interval. *)
Theorem chunks_exact_leftover {A} (l : list A) (n : nat) (w : World) :
  0 < n -> length l mod n <> 0 ->
  drain (Bot.chunks_exact l n) w
  = (Raise (ValueError (Leftover (length l mod n))),
     logged LOGGER ERROR (Leftover (length l mod n)) w) /\
  concat (yielded (Bot.chunks_exact l n)) = take (n * (length l / n)) l /\
  Forall (fun c => length c = n) (yielded (Bot.chunks_exact l n)).
Proof.
  intros Hn Hmod.
  destruct (list_split_chunks n l Hn) as (chunks & rest & Heq & Hall & Hrest).
  pose proof (concat_length_chunks chunks n Hall) as Hlen.
  assert (Hl : length l = length chunks * n + length rest).
  { rewrite Heq, length_app, Hlen. lia. }
  assert (Hr : length l mod n = length rest).
  { rewrite Hl, Nat.add_comm, Nat.Div0.mod_add. by apply Nat.mod_small. }
  assert (Hq : length l / n = length chunks).
  { rewrite Hl, Nat.div_add_l by lia. rewrite Nat.div_small by done. lia. }
  destruct (chunks_exact_split chunks rest n Hn Hall Hrest) as [Hy Hd].
  rewrite Hr, Hq. unfold drain. rewrite Heq, Hy, Hd.
  destruct rest as [|x rest]; [by rewrite Hr in Hmod|].
  repeat split; [|done].
  rewrite <- Hlen. by rewrite take_app_length.
Qed.

Lemma chunks_exact_leftover_witness :
  drain (Bot.chunks_exact [1; 2; 3; 4; 5] 3) (Sample.world [])
  = (Raise (ValueError (Leftover (length [1; 2; 3; 4; 5] mod 3))),
     logged LOGGER ERROR (Leftover (length [1; 2; 3; 4; 5] mod 3)) (Sample.world [])) /\
  concat (yielded (Bot.chunks_exact [1; 2; 3; 4; 5] 3))
  = take (3 * (length [1; 2; 3; 4; 5] / 3)) [1; 2; 3; 4; 5] /\
  Forall (fun c => length c = 3) (yielded (Bot.chunks_exact [1; 2; 3; 4; 5] 3)).
Proof.
  apply (chunks_exact_leftover [1; 2; 3; 4; 5] 3 (Sample.world [])).
  - lia.
  - simpl. lia.
Defined.

(** X3: with interval 0 no chunk is ever complete: [chunks_exact] yields
    nothing, returns for the empty list and otherwise raises the
    [ValueError] that reports the whole list as leftover. *)
Theorem chunks_exact_zero_interval {A} (l : list A) (w : World) :
  yielded (Bot.chunks_exact l 0) = [] /\
  drain (Bot.chunks_exact l 0) w
  = match l with
    | [] => (Return [], w)
    | _ :: _ =>
        (Raise (ValueError (Leftover (length l))),
         logged LOGGER ERROR (Leftover (length l)) w)
    end.
Proof.
  assert (H : forall chunk : list A,
    yielded (Bot.chunks_exact_from chunk l 0) = [] /\
    for_each (Bot.chunks_exact_from chunk l 0)
      (fun a acc => ret (acc ++ [a])) [] w
    = match chunk ++ l with
      | [] => (Return [], w)
      | _ :: _ =>
          (Raise (ValueError (Leftover (length (chunk ++ l)))),
           logged LOGGER ERROR (Leftover (length (chunk ++ l))) w)
      end).
  { induction l as [|item l IH]; intros chunk.
    - rewrite app_nil_r. by destruct chunk.
    - cbn [Bot.chunks_exact_from].
      rewrite (proj2 (Nat.eqb_neq _ _)) by (rewrite length_app; simpl; lia).
      specialize (IH (chunk ++ [item])). rewrite <- app_assoc in IH. exact IH. }
  apply (H []).
Qed.

(** ** Row texts and the mapping of a group *)

Lemma lstrip_no_leading (s : string) : starts_with_space (Py.lstrip s) = false.
Proof.
  induction s as [|c s IH]; [done|]. simpl.
  destruct (Py.isspace c) eqn:Hc; [exact IH|]. simpl. exact Hc.
Qed.

Lemma rstrip_no_trailing (s : string) : ends_with_space (Py.rstrip s) = false.
Proof.
  induction s as [|c s IH]; [done|]. simpl.
  destruct (Py.rstrip s) as [|d r] eqn:Hr.
  - destruct (Py.isspace c) eqn:Hc; [done|]. simpl. exact Hc.
  - exact IH.
Qed.

Lemma rstrip_keeps_leading (s : string) :
  starts_with_space s = false -> starts_with_space (Py.rstrip s) = false.
Proof.
  destruct s as [|c s]; [done|]. simpl. intros Hc.
  destruct (Py.rstrip s); [by rewrite Hc|done].
Qed.

Lemma lstrip_fixed (s : string) : starts_with_space s = false -> Py.lstrip s = s.
Proof. destruct s as [|c s]; [done|]. simpl. by intros ->. Qed.

Lemma rstrip_fixed (s : string) : ends_with_space s = false -> Py.rstrip s = s.
Proof.
  induction s as [|c s IH]; [done|]. simpl.
  destruct s as [|d s].
  - simpl. by intros ->.
  - intros Hs. by rewrite IH.
Qed.

Lemma strip_stripped (s : string) : stripped (Py.strip s) = true.
Proof.
  unfold stripped, Py.strip.
  by rewrite rstrip_keeps_leading, rstrip_no_trailing by apply lstrip_no_leading.
Qed.

Lemma stripped_fixed (s : string) : stripped s = true -> Py.strip s = s.
Proof.
  unfold stripped, Py.strip. intros [H1 H2]%andb_prop.
  apply negb_true_iff in H1. apply negb_true_iff in H2.
  by rewrite lstrip_fixed, rstrip_fixed.
Qed.

Lemma row_text_stripped (row : Node) (h d : string) :
  Bot.get_table_row_text row = Some (h, d) -> stripped h = true /\ stripped d = true.
Proof.
  unfold Bot.get_table_row_text.
  destruct (find "th" row) as [header|]; [|done].
  destruct (find "td" row) as [data|]; [|done].
  intros Heq. inversion Heq; subst. auto using strip_stripped.
Qed.

(** X4: [get_table_row_text] returns [None] exactly when the row lacks a
    [th] or lacks a [td]; what it returns otherwise are the texts of the
    first [th] and the first [td], neither beginning nor ending with
    whitespace, so stripping them again changes nothing. *)
Theorem row_text_cells_and_stripped (row : Node) :
  (Bot.get_table_row_text row = None
   <-> find "th" row = None \/ find "td" row = None) /\
  (forall h d, Bot.get_table_row_text row = Some (h, d) ->
     (exists header data,
        find "th" row = Some header /\ find "td" row = Some data /\
        h = Py.strip (text header) /\ d = Py.strip (text data)) /\
     stripped h = true /\ stripped d = true /\
     Py.strip h = h /\ Py.strip d = d).
Proof.
  unfold Bot.get_table_row_text. split.
  - destruct (find "th" row), (find "td" row); intuition congruence.
  - intros h d. destruct (find "th" row) as [header|]; [|done].
    destruct (find "td" row) as [data|]; [|done].
    intros Heq. inversion Heq; subst. split; [by eauto 6|].
    repeat split; auto using strip_stripped, stripped_fixed.
Qed.

Lemma parse_lookup_from (chunk : list Node) (data : gmap string string) (h : string) :
  fold_left
    (fun data row =>
       match Bot.get_table_row_text row with
       | Some row_data => <[row_data.1 := row_data.2]> data
       | None => data
       end)
    chunk data !! h
  = match last (omap (labelled h) chunk) with
    | Some d => Some d
    | None => data !! h
    end.
Proof.
  revert data. induction chunk as [|row chunk IH]; intros data; [done|].
  cbn [fold_left]. rewrite IH, omap_cons. unfold labelled at 2.
  destruct (Bot.get_table_row_text row) as [[h' d']|]; [|done].
  cbn [fst snd]. destruct (decide (h' = h)) as [->|Hne].
  - rewrite last_cons, lookup_insert_eq.
    by destruct (last (omap (labelled h) chunk)).
  - by rewrite lookup_insert_ne.
Qed.

Lemma parse_lookup_last (chunk : list Node) (h : string) :
  Bot.parse_chunked_rows chunk !! h = last (omap (labelled h) chunk).
Proof.
  unfold Bot.parse_chunked_rows. rewrite parse_lookup_from, lookup_empty.
  by destruct (last _).
Qed.

(** X5: the mapping of a group holds, for every label, the data text of
    the last row of the group that carries that label (and has both
    cells); a label no such row carries is absent. *)
Theorem parse_chunked_rows_last_wins (chunk : list Node) (h : string) :
  Bot.parse_chunked_rows chunk !! h = last (omap (labelled h) chunk).
Proof.
  unfold Bot.parse_chunked_rows.
  rewrite (parse_lookup_from chunk ∅ h), lookup_empty.
  destruct (last (omap (labelled h) chunk)) as [d|]; reflexivity.
Qed.

(** X6: a later row overrides an earlier row with the same label: when a
    row labelled [h] with data [d] is followed only by rows that are not
    labelled [h], the mapping sends [h] to [d], whatever precedes the
    row. *)
Theorem parse_chunked_rows_override (before after : list Node) (row : Node)
    (h d : string) :
  Bot.get_table_row_text row = Some (h, d) ->
  Forall (fun r => labelled h r = None) after ->
  Bot.parse_chunked_rows (before ++ row :: after) !! h = Some d.
Proof.
  intros Hrow Hafter. rewrite parse_lookup_last.
  assert (Hnone : omap (labelled h) after = []).
  { induction Hafter as [|r after Hr _ IH]; [done|].
    by rewrite omap_cons, Hr. }
  rewrite omap_app, omap_cons, Hnone. unfold labelled at 2. rewrite Hrow.
  cbn [fst snd]. rewrite decide_True by done. by rewrite last_snoc.
Qed.

Lemma parse_chunked_rows_override_witness :
  Bot.parse_chunked_rows
    ([Sample.tr "Code" "OLD111"] ++ Sample.tr " Code " "NEW222 "
       :: [Sample.tr "Dates" "Jan 1-31"]) !! "Code"
  = Some "NEW222".
Proof.
  apply (parse_chunked_rows_override [Sample.tr "Code" "OLD111"]
           [Sample.tr "Dates" "Jan 1-31"] (Sample.tr " Code " "NEW222 ")
           "Code" "NEW222").
  - reflexivity.
  - repeat constructor.
Defined.

Lemma parse_values_stripped (chunk : list Node) (h d : string) :
  Bot.parse_chunked_rows chunk !! h = Some d -> stripped h = true /\ stripped d = true.
Proof.
  rewrite parse_lookup_last. intros Hlast.
  apply last_Some_elem_of, list_elem_of_omap in Hlast as (row & _ & Hrow).
  unfold labelled in Hrow.
  destruct (Bot.get_table_row_text row) as [[h' d']|] eqn:Htext; [|done].
  cbn [fst snd] in Hrow. destruct (decide (h' = h)) as [->|]; [|done].
  inversion Hrow; subst. by apply (row_text_stripped row).
Qed.

Lemma extracted_codes_stripped (rows : list Node) (c : string) :
  c ∈ extracted_codes rows -> stripped c = true.
Proof.
  unfold extracted_codes. intros (g & _ & Hg)%list_elem_of_omap.
  by apply (parse_values_stripped g "Code" c).
Qed.

(** ** [get_redeem_codes]: when it returns, what it changes, how it fails *)

Lemma rows_count_inv (rows : list Node) :
  ((Z.of_nat (length rows) - 1) mod 3 = 0)%Z ->
  length rows = 1 + 3 * ((length rows - 1) / 3).
Proof.
  intros Hm. pose proof (rows_count rows Hm) as Hd. rewrite length_drop in Hd.
  destruct rows; [vm_compute in Hm; discriminate|]. simpl length in *. lia.
Qed.

Lemma groups_all_code_inv (groups : list (list Node)) :
  forallb (fun g => bool_decide (is_Some (code_of g))) groups = true ->
  Forall (fun g => has_code_row g = true) groups.
Proof.
  intros H. apply List.Forall_forall. intros g Hg.
  rewrite forallb_forall in H. apply has_code_row_code_of.
  pose proof (H g Hg) as Hb. by apply bool_decide_eq_true_1 in Hb.
Qed.

Lemma cases_return_inv (lg : Logger) (ARGUMENTS : Arguments) (table : Node)
    (w : World) (added : list string) (w' : World) :
  get_redeem_codes_cases lg ARGUMENTS table w = (Return added, w') ->
  exists rows N,
    find_all "tr" table = Some rows /\ well_formed rows N /\
    added = filter (fun c => c ∉ CODE_MEMO w) (extracted_codes rows) /\
    w' = diffed ARGUMENTS (extracted_codes rows) w.
Proof.
  unfold get_redeem_codes_cases.
  set (rows := List.filter (is_tag "tr") (descendants table)).
  destruct (decide _) as [Hm|]; [|discriminate].
  destruct (forallb _ _) eqn:Hall; [|discriminate].
  intros Hret. inversion Hret; subst.
  exists rows, ((length rows - 1) / 3). repeat split; try done.
  - by apply rows_count_inv.
  - by apply groups_all_code_inv.
Qed.

Lemma cases_raise_inv (lg : Logger) (ARGUMENTS : Arguments) (table : Node)
    (w : World) (e : Exception) (w' : World) :
  get_redeem_codes_cases lg ARGUMENTS table w = (Raise e, w') ->
  (e = ValueError (ExpectedRows table) \/ e = ValueError (InvalidData table)) /\
  exists msg, e = ValueError msg /\ w' = logged lg ERROR msg w.
Proof.
  unfold get_redeem_codes_cases.
  destruct (decide _); [destruct (forallb _ _)|]; intros Heq;
    inversion Heq; subst; eauto.
Qed.

Lemma forallb_false_elem {A} (f : A -> bool) (l : list A) :
  forallb f l = false -> exists x, x ∈ l /\ f x = false.
Proof.
  induction l as [|x l IH]; [discriminate|]. cbn [forallb].
  destruct (f x) eqn:Hx.
  - intros Hl. destruct (IH Hl) as (y & Hy & Hfy). exists y. split; [by right|done].
  - intros _. exists x. split; [by left|done].
Qed.

Lemma cases_value_error_inv (lg : Logger) (ARGUMENTS : Arguments) (table : Node)
    (w : World) (msg : Msg) (w' : World) :
  get_redeem_codes_cases lg ARGUMENTS table w = (Raise (ValueError msg), w') ->
  w' = logged lg ERROR msg w /\
  exists rows,
    find_all "tr" table = Some rows /\
    ((msg = ExpectedRows table /\ ((Z.of_nat (length rows) - 1) mod 3 <> 0)%Z) \/
     (msg = InvalidData table /\
      (exists N, length rows = 1 + 3 * N) /\
      exists group,
        group ∈ row_groups rows /\ Bot.parse_chunked_rows group !! "Code" = None)).
Proof.
  unfold get_redeem_codes_cases, find_all.
  set (rows := List.filter (is_tag "tr") (descendants table)).
  destruct (decide _) as [Hm|Hm]; [destruct (forallb _ _) eqn:Hall|];
    intros Heq; inversion Heq; subst; (split; [done|]); exists rows;
    (split; [done|]).
  - right. split; [done|]. split; [by eexists; apply rows_count_inv|].
    apply forallb_false_elem in Hall as (group & Hin & Hnone).
    exists group. split; [done|].
    apply bool_decide_eq_false_1 in Hnone. fold (code_of group).
    destruct (code_of group); [|done]. by destruct Hnone.
  - by left.
Qed.

(** X7: [get_redeem_codes] returns normally only for well-formed tables:
    whenever it returns, the row list has 1 + 3N rows, every 3-row group
    has a row with both cells labelled Code, and N codes were extracted
    (so a table that is not well formed never yields an added list and
    never changes the memo through a return). *)
Theorem returns_only_if_well_formed (ARGUMENTS : Arguments) (table : Node)
    (w : World) (added : list string) (w' : World) :
  Bot.get_redeem_codes ARGUMENTS table w = (Return added, w') ->
  exists rows N,
    find_all "tr" table = Some rows /\
    well_formed rows N /\
    length (row_groups rows) = N /\
    length (extracted_codes rows) = N /\
    Forall (fun g => is_Some (Bot.parse_chunked_rows g !! "Code")) (row_groups rows).
Proof.
  rewrite bot_cases. intros Hrun.
  apply cases_return_inv in Hrun as (rows & N & Hrows & [Hlen Hcode] & _ & _).
  assert (HN : length (row_groups rows) = N).
  { unfold row_groups. rewrite groups_of_three_count, Hlen.
    replace (1 + 3 * N - 1) with (N * 3) by lia. by apply Nat.div_mul. }
  exists rows, N. split; [done|]. split; [done|]. split; [done|]. split.
  - unfold extracted_codes. by rewrite omap_all_length by (by apply groups_all_code).
  - eapply Forall_impl; [exact Hcode|]. intros g Hg.
    by apply has_code_row_code_of.
Qed.

Lemma returns_only_if_well_formed_witness :
  exists rows N,
    find_all "tr"
      (Sample.table (Sample.heading :: Sample.entry "ABC123" ++ Sample.entry "XYZ789"))
    = Some rows /\
    well_formed rows N /\
    length (row_groups rows) = N /\
    length (extracted_codes rows) = N /\
    Forall (fun g => is_Some (Bot.parse_chunked_rows g !! "Code")) (row_groups rows).
Proof.
  apply (returns_only_if_well_formed Sample.ARGUMENTS
           (Sample.table (Sample.heading :: Sample.entry "ABC123" ++ Sample.entry "XYZ789"))
           (Sample.world ["OLD000"]) ["ABC123"; "XYZ789"]
           (Bot.get_redeem_codes Sample.ARGUMENTS
              (Sample.table
                 (Sample.heading :: Sample.entry "ABC123" ++ Sample.entry "XYZ789"))
              (Sample.world ["OLD000"])).2).
  vm_compute. reflexivity.
Defined.

(** X8: whenever [get_redeem_codes] raises one of the [ValueError]s of
    the scripts' own [raise] statements, it is the row-count one, and
    then the row count is not of the form 1 + 3N, or the invalid-data
    one, and then the row count is 1 + 3N and some 3-row group has no
    Code in its mapping; it is never the leftover error of
    [chunks_exact].  The message was logged once at error level just
    before, the memo set, the files and the channel are as they were,
    and redeem-code.py raises the same error, logged on the root
    logger. *)
Theorem own_errors_are_logged_and_clean (ARGUMENTS : Arguments) (table : Node)
    (w : World) (msg : Msg) (w' : World) :
  Bot.get_redeem_codes ARGUMENTS table w = (Raise (ValueError msg), w') ->
  w' = logged LOGGER ERROR msg w /\
  same_state w' w /\
  RedeemCode.get_redeem_codes ARGUMENTS table w
  = (Raise (ValueError msg), logged root ERROR msg w) /\
  (forall n, msg <> Leftover n) /\
  exists rows,
    find_all "tr" table = Some rows /\
    ((msg = ExpectedRows table /\ ((Z.of_nat (length rows) - 1) mod 3 <> 0)%Z) \/
     (msg = InvalidData table /\
      (exists N, length rows = 1 + 3 * N) /\
      exists group,
        group ∈ row_groups rows /\ Bot.parse_chunked_rows group !! "Code" = None)).
Proof.
  rewrite bot_cases, redeem_cases. intros Hrun.
  destruct (cases_value_error_inv _ _ _ _ _ _ Hrun) as (-> & rows & Hrows & Hkind).
  split; [done|]. split; [done|]. split; [|split].
  - revert Hrun. unfold get_redeem_codes_cases.
    destruct (decide _); [destruct (forallb _ _)|]; intros Heq;
      inversion Heq; subst; done.
  - intros n ->. by destruct Hkind as [[? _]|[? _]].
  - by exists rows.
Qed.

Lemma own_errors_are_logged_and_clean_witness :
  logged LOGGER ERROR (InvalidData Sample.header_only_table) (Sample.world ["OLD000"])
  = logged LOGGER ERROR (InvalidData Sample.header_only_table) (Sample.world ["OLD000"]) /\
  same_state
    (logged LOGGER ERROR (InvalidData Sample.header_only_table) (Sample.world ["OLD000"]))
    (Sample.world ["OLD000"]) /\
  RedeemCode.get_redeem_codes Sample.ARGUMENTS Sample.header_only_table
    (Sample.world ["OLD000"])
  = (Raise (ValueError (InvalidData Sample.header_only_table)),
     logged root ERROR (InvalidData Sample.header_only_table) (Sample.world ["OLD000"])) /\
  (forall n, InvalidData Sample.header_only_table <> Leftover n) /\
  exists rows,
    find_all "tr" Sample.header_only_table = Some rows /\
    ((InvalidData Sample.header_only_table = ExpectedRows Sample.header_only_table /\
      ((Z.of_nat (length rows) - 1) mod 3 <> 0)%Z) \/
     (InvalidData Sample.header_only_table = InvalidData Sample.header_only_table /\
      (exists N, length rows = 1 + 3 * N) /\
      exists group,
        group ∈ row_groups rows /\ Bot.parse_chunked_rows group !! "Code" = None)).
Proof.
  apply (own_errors_are_logged_and_clean Sample.ARGUMENTS Sample.header_only_table
           (Sample.world ["OLD000"])).
  reflexivity.
Defined.

(** X9: a successful [get_redeem_codes] writes the memo file and nothing
    else: the log and the channel are untouched and every other file
    keeps its content. *)
Theorem success_writes_only_the_memo_file (ARGUMENTS : Arguments) (table : Node)
    (w : World) (added : list string) (w' : World) :
  Bot.get_redeem_codes ARGUMENTS table w = (Return added, w') ->
  log w' = log w /\ sent w' = sent w /\
  files w' = <[memo_filename ARGUMENTS :=
                 Py.join (String Py.LF EmptyString) (Py.sorted (CODE_MEMO w'))]>
               (files w) /\
  (forall path, path <> memo_filename ARGUMENTS ->
     files w' !! path = files w !! path).
Proof.
  rewrite bot_cases. intros Hrun.
  apply cases_return_inv in Hrun as (rows & N & _ & _ & _ & ->).
  repeat split. intros path Hpath. simpl. by rewrite lookup_insert_ne.
Qed.

Lemma success_writes_only_the_memo_file_witness :
  log (Bot.get_redeem_codes Sample.ARGUMENTS
         (Sample.table (Sample.heading :: Sample.entry "ABC123"))
         (Sample.world ["OLD000"])).2
  = log (Sample.world ["OLD000"]) /\
  sent (Bot.get_redeem_codes Sample.ARGUMENTS
          (Sample.table (Sample.heading :: Sample.entry "ABC123"))
          (Sample.world ["OLD000"])).2
  = sent (Sample.world ["OLD000"]) /\
  files (Bot.get_redeem_codes Sample.ARGUMENTS
           (Sample.table (Sample.heading :: Sample.entry "ABC123"))
           (Sample.world ["OLD000"])).2
  = <[memo_filename Sample.ARGUMENTS :=
        Py.join (String Py.LF EmptyString)
          (Py.sorted
             (CODE_MEMO
                (Bot.get_redeem_codes Sample.ARGUMENTS
                   (Sample.table (Sample.heading :: Sample.entry "ABC123"))
                   (Sample.world ["OLD000"])).2))]>
      (files (Sample.world ["OLD000"])) /\
  (forall path, path <> memo_filename Sample.ARGUMENTS ->
     files (Bot.get_redeem_codes Sample.ARGUMENTS
              (Sample.table (Sample.heading :: Sample.entry "ABC123"))
              (Sample.world ["OLD000"])).2 !! path
     = files (Sample.world ["OLD000"]) !! path).
Proof.
  apply (success_writes_only_the_memo_file Sample.ARGUMENTS
           (Sample.table (Sample.heading :: Sample.entry "ABC123"))
           (Sample.world ["OLD000"]) ["ABC123"]).
  vm_compute. reflexivity.
Defined.

(** X10: every code that [get_redeem_codes] returns as added was absent
    from the memo before the call and is in the memo after it; the added
    list is empty exactly when the memo before the call already held
    every extracted code; and codes of the old memo that the table no
    longer lists are forgotten. *)
Theorem added_codes_are_new (ARGUMENTS : Arguments) (table : Node) (w : World)
    (added : list string) (w' : World) :
  Bot.get_redeem_codes ARGUMENTS table w = (Return added, w') ->
  (forall c, c ∈ added -> (c ∉ CODE_MEMO w) /\ c ∈ CODE_MEMO w') /\
  (added = [] <-> CODE_MEMO w' ⊆ CODE_MEMO w) /\
  (forall rows c, find_all "tr" table = Some rows ->
     c ∉ extracted_codes rows -> c ∉ CODE_MEMO w').
Proof.
  rewrite bot_cases. intros Hrun.
  apply cases_return_inv in Hrun as (rows & N & Hrows & _ & -> & ->).
  simpl. split; [|split].
  - intros c [Hnew Hin]%list_elem_of_filter. split; [done|].
    by apply elem_of_list_to_set.
  - split.
    + intros Hnil c Hc%elem_of_list_to_set.
      destruct (decide (c ∈ CODE_MEMO w)) as [|Hnew]; [done|].
      assert (Hin : c ∈ filter (fun c => c ∉ CODE_MEMO w) (extracted_codes rows)).
      { by apply list_elem_of_filter. }
      rewrite Hnil in Hin. by apply not_elem_of_nil in Hin.
    + intros Hsub. apply filter_none. intros c Hc Hnew.
      apply Hnew, Hsub. by apply elem_of_list_to_set.
  - intros rows' c Hrows' Hout Hin. rewrite Hrows in Hrows'.
    inversion Hrows'; subst. apply elem_of_list_to_set in Hin. by apply Hout.
Qed.

Lemma added_codes_are_new_witness :
  (forall c, c ∈ ["ABC123"] ->
     (c ∉ CODE_MEMO (Sample.world ["XYZ789"; "OLD000"])) /\
     c ∈ CODE_MEMO
           (Bot.get_redeem_codes Sample.ARGUMENTS
              (Sample.table
                 (Sample.heading :: Sample.entry "ABC123" ++ Sample.entry "XYZ789"))
              (Sample.world ["XYZ789"; "OLD000"])).2) /\
  (["ABC123"] = []
   <-> CODE_MEMO
         (Bot.get_redeem_codes Sample.ARGUMENTS
            (Sample.table
               (Sample.heading :: Sample.entry "ABC123" ++ Sample.entry "XYZ789"))
            (Sample.world ["XYZ789"; "OLD000"])).2
       ⊆ CODE_MEMO (Sample.world ["XYZ789"; "OLD000"])) /\
  (forall rows c,
     find_all "tr"
       (Sample.table
          (Sample.heading :: Sample.entry "ABC123" ++ Sample.entry "XYZ789"))
     = Some rows ->
     c ∉ extracted_codes rows ->
     c ∉ CODE_MEMO
           (Bot.get_redeem_codes Sample.ARGUMENTS
              (Sample.table
                 (Sample.heading :: Sample.entry "ABC123" ++ Sample.entry "XYZ789"))
              (Sample.world ["XYZ789"; "OLD000"])).2).
Proof.
  apply (added_codes_are_new Sample.ARGUMENTS
           (Sample.table
              (Sample.heading :: Sample.entry "ABC123" ++ Sample.entry "XYZ789"))
           (Sample.world ["XYZ789"; "OLD000"]) ["ABC123"]).
  vm_compute. reflexivity.
Defined.

(** X11: a table whose only row is the heading row is a valid scrape
    with no codes: [get_redeem_codes] returns the empty added list,
    empties the memo whatever it held, and writes the memo file with
    empty content. *)
Theorem heading_only_table_clears_memo (ARGUMENTS : Arguments) (table : Node)
    (header : Node) (w : World) :
  find_all "tr" table = Some [header] ->
  exists w',
    Bot.get_redeem_codes ARGUMENTS table w = (Return [], w') /\
    CODE_MEMO w' = ∅ /\
    files w' !! memo_filename ARGUMENTS = Some EmptyString.
Proof.
  intros Hrows.
  exists (diffed ARGUMENTS (extracted_codes [header]) w).
  rewrite bot_cases, (well_formed_run _ ARGUMENTS table [header] 0 w);
    [|done|done|by constructor].
  repeat split. simpl. by rewrite lookup_insert_eq.
Qed.

Lemma heading_only_table_clears_memo_witness :
  exists w',
    Bot.get_redeem_codes Sample.ARGUMENTS (Sample.table [Sample.heading])
      (Sample.world ["OLD000"]) = (Return [], w') /\
    CODE_MEMO w' = ∅ /\
    files w' !! memo_filename Sample.ARGUMENTS = Some EmptyString.
Proof.
  apply (heading_only_table_clears_memo Sample.ARGUMENTS
           (Sample.table [Sample.heading]) Sample.heading (Sample.world ["OLD000"])).
  reflexivity.
Defined.

(** X12: after a successful [get_redeem_codes] no code of the memo, and
    no code of the added list, begins or ends with whitespace: each is
    its own [strip]. *)
Theorem memo_codes_are_stripped (ARGUMENTS : Arguments) (table : Node) (w : World)
    (added : list string) (w' : World) :
  Bot.get_redeem_codes ARGUMENTS table w = (Return added, w') ->
  (forall c, c ∈ CODE_MEMO w' -> stripped c = true /\ Py.strip c = c) /\
  (forall c, c ∈ added -> stripped c = true /\ Py.strip c = c).
Proof.
  rewrite bot_cases. intros Hrun.
  apply cases_return_inv in Hrun as (rows & N & _ & _ & -> & ->).
  simpl. split.
  - intros c Hc%elem_of_list_to_set.
    pose proof (extracted_codes_stripped rows c Hc). auto using stripped_fixed.
  - intros c [_ Hc]%list_elem_of_filter.
    pose proof (extracted_codes_stripped rows c Hc). auto using stripped_fixed.
Qed.

Lemma memo_codes_are_stripped_witness :
  (forall c,
     c ∈ CODE_MEMO
           (Bot.get_redeem_codes Sample.ARGUMENTS
              (Sample.table
                 (Sample.heading
                    :: [Sample.tr " Code" "  ABC 123  "; Sample.tr "Rewards" "Gem x10";
                        Sample.tr "Dates" "Jan 1-31"]))
              (Sample.world [])).2 ->
     stripped c = true /\ Py.strip c = c) /\
  (forall c, c ∈ ["ABC 123"] -> stripped c = true /\ Py.strip c = c).
Proof.
  apply (memo_codes_are_stripped Sample.ARGUMENTS
           (Sample.table
              (Sample.heading
                 :: [Sample.tr " Code" "  ABC 123  "; Sample.tr "Rewards" "Gem x10";
                     Sample.tr "Dates" "Jan 1-31"]))
           (Sample.world []) ["ABC 123"]).
  vm_compute. reflexivity.
Defined.

Lemma sorted_strongly (s : gset string) : StronglySorted String.le (Py.sorted s).
Proof. unfold Py.sorted. apply StronglySorted_merge_sort; apply _. Qed.

Lemma sorted_NoDup (s : gset string) : NoDup (Py.sorted s).
Proof.
  unfold Py.sorted. rewrite (merge_sort_Permutation String.le (elements s)).
  apply NoDup_elements.
Qed.

(** X13: the memo file that a successful [get_redeem_codes] writes is the
    newline-join of the codes of the new memo in ascending order: every
    line is less than or equal to all the lines after it, no code is
    listed twice, and the lines are exactly the codes of the memo. *)
Theorem memo_file_is_sorted (ARGUMENTS : Arguments) (table : Node) (w : World)
    (added : list string) (w' : World) :
  Bot.get_redeem_codes ARGUMENTS table w = (Return added, w') ->
  exists lines,
    files w' !! memo_filename ARGUMENTS
    = Some (Py.join (String Py.LF EmptyString) lines) /\
    StronglySorted String.le lines /\
    NoDup lines /\
    (forall c, c ∈ lines <-> c ∈ CODE_MEMO w') /\
    length lines = size (CODE_MEMO w').
Proof.
  rewrite bot_cases. intros Hrun.
  apply cases_return_inv in Hrun as (rows & N & _ & _ & _ & ->).
  exists (Py.sorted (list_to_set (extracted_codes rows))).
  split; [apply diffed_file|].
  split; [apply sorted_strongly|]. split; [apply sorted_NoDup|].
  split; [intros c; apply sorted_elem|].
  simpl. unfold Py.sorted.
  by rewrite (merge_sort_Permutation String.le (elements _)).
Qed.

Lemma memo_file_is_sorted_witness :
  exists lines,
    files
      (Bot.get_redeem_codes Sample.ARGUMENTS
         (Sample.table
            (Sample.heading :: Sample.entry "ZZZ" ++ Sample.entry "MMM"
               ++ Sample.entry "AAA"))
         (Sample.world ["MMM"])).2 !! memo_filename Sample.ARGUMENTS
    = Some (Py.join (String Py.LF EmptyString) lines) /\
    StronglySorted String.le lines /\
    NoDup lines /\
    (forall c,
       c ∈ lines
       <-> c ∈ CODE_MEMO
                 (Bot.get_redeem_codes Sample.ARGUMENTS
                    (Sample.table
                       (Sample.heading :: Sample.entry "ZZZ" ++ Sample.entry "MMM"
                          ++ Sample.entry "AAA"))
                    (Sample.world ["MMM"])).2) /\
    length lines
    = size
        (CODE_MEMO
           (Bot.get_redeem_codes Sample.ARGUMENTS
              (Sample.table
                 (Sample.heading :: Sample.entry "ZZZ" ++ Sample.entry "MMM"
                    ++ Sample.entry "AAA"))
              (Sample.world ["MMM"])).2).
Proof.
  apply (memo_file_is_sorted Sample.ARGUMENTS
           (Sample.table
              (Sample.heading :: Sample.entry "ZZZ" ++ Sample.entry "MMM"
                 ++ Sample.entry "AAA"))
           (Sample.world ["MMM"]) ["ZZZ"; "AAA"]).
  vm_compute. reflexivity.
Defined.

Example memo_file_sample :
  files
    (Bot.get_redeem_codes Sample.ARGUMENTS
       (Sample.table
          (Sample.heading :: Sample.entry "ZZZ" ++ Sample.entry "MMM"
             ++ Sample.entry "AAA"))
       (Sample.world ["MMM"])).2 !! "redeem-codes.txt"
  = Some (Py.join (String Py.LF EmptyString) ["AAA"; "MMM"; "ZZZ"]).
Proof. vm_compute. reflexivity. Qed.

(** ** The two scripts, cycle and startup *)

Lemma agree_ret {A} (a : A) : agree (ret a) (ret a).
Proof. by intros w1 w2 H. Qed.

Lemma agree_raise {A} (e : Exception) : agree (@raise A e) (raise e).
Proof. by intros w1 w2 H. Qed.

Lemma agree_lift {A} (o : Outcome A) : agree (lift o) (lift o).
Proof. by intros w1 w2 H. Qed.

Lemma agree_emit (lg1 lg2 : Logger) (lv1 lv2 : Level) (msg1 msg2 : Msg) :
  agree (emit lg1 lv1 msg1) (emit lg2 lv2 msg2).
Proof. by intros w1 w2 H. Qed.

Lemma agree_bind {A B} (m1 m2 : M A) (k1 k2 : A -> M B) :
  agree m1 m2 -> (forall a, agree (k1 a) (k2 a)) ->
  agree (bind m1 k1) (bind m2 k2).
Proof.
  intros Hm Hk w1 w2 Hw. unfold bind.
  destruct (Hm w1 w2 Hw) as [Ho Hs].
  destruct (m1 w1) as [[a1|e1] w1'], (m2 w2) as [[a2|e2] w2'];
    simpl in Ho, Hs; try discriminate Ho.
  - inversion Ho; subst. by apply Hk.
  - by inversion Ho; subst.
Qed.

Lemma agree_read_memo :
  agree (fun w => (Return (CODE_MEMO w), w)) (fun w => (Return (CODE_MEMO w), w)).
Proof. intros w1 w2 H. simpl. split; [|done]. f_equal. apply H. Qed.

Lemma agree_channel_send (channel : string) (message : Msg) :
  agree (channel_send channel message) (channel_send channel message).
Proof.
  intros w1 w2 (Hm & Hf & Hs). repeat split; try done. simpl. by rewrite Hs.
Qed.

Lemma agree_memo_update (xs : gset string) : agree (memo_update xs) (memo_update xs).
Proof.
  intros w1 w2 (Hm & Hf & Hs). repeat split; try done. simpl. by rewrite Hm.
Qed.

Lemma agree_path_exists (path : string) : agree (path_exists path) (path_exists path).
Proof.
  intros w1 w2 (Hm & Hf & Hs). unfold path_exists. simpl. by rewrite Hf.
Qed.

Lemma agree_read_file (path : string) : agree (read_file path) (read_file path).
Proof.
  intros w1 w2 (Hm & Hf & Hs). unfold read_file. rewrite Hf.
  by destruct (files w2 !! path).
Qed.

Lemma agree_raise_for_status (r : Response) :
  agree (raise_for_status r) (raise_for_status r).
Proof.
  unfold raise_for_status.
  destruct (_ && _); [apply agree_raise|apply agree_ret].
Qed.

Lemma agree_get_redeem_code_table (OUTSIDE : Outside) (url : string) :
  agree (Bot.get_redeem_code_table OUTSIDE url)
    (RedeemCode.get_redeem_code_table OUTSIDE url).
Proof.
  unfold Bot.get_redeem_code_table, RedeemCode.get_redeem_code_table.
  apply agree_bind; [apply agree_lift|]. intros r.
  apply agree_bind; [apply agree_raise_for_status|]. intros _.
  destruct (negb _).
  - apply agree_bind; [apply agree_emit|]. intros _. apply agree_raise.
  - destruct (select _ _ _); [apply agree_raise|apply agree_ret].
Qed.

Lemma agree_get_redeem_codes (ARGUMENTS : Arguments) (table : Node) :
  agree (Bot.get_redeem_codes ARGUMENTS table)
    (RedeemCode.get_redeem_codes ARGUMENTS table).
Proof.
  intros w1 w2 (Hm & Hf & Hs). rewrite bot_cases, redeem_cases.
  unfold get_redeem_codes_cases.
  destruct (decide _); [destruct (forallb _ _)|]; simpl; try done.
  rewrite Hm. split; [done|]. unfold same_state. simpl. by rewrite Hf, Hs.
Qed.

(** X14: one cycle of bot.py and one cycle of redeem-code.py, run with
    the same command line against the same wiki and chat client from
    worlds with the same memo, files and channel, end alike: both return
    or both raise the same error, and the memo, the files and the
    messages sent are the same.  The scripts differ only in what they
    log. *)
Theorem cycles_agree (ARGUMENTS : Arguments) (OUTSIDE : Outside) :
  agree (Bot.fetch_and_send_codes ARGUMENTS OUTSIDE)
    (RedeemCode.fetch_and_send_codes ARGUMENTS OUTSIDE).
Proof.
  unfold Bot.fetch_and_send_codes, RedeemCode.fetch_and_send_codes.
  apply agree_bind; [apply agree_emit|]. intros _.
  apply agree_bind; [apply agree_lift|]. intros channel.
  apply agree_bind; [apply agree_get_redeem_code_table|]. intros table.
  apply agree_bind; [apply agree_get_redeem_codes|]. intros added.
  apply agree_bind; [apply agree_read_memo|]. intros memo.
  apply agree_bind; [apply agree_emit|]. intros _.
  destruct added; [apply agree_ret|].
  apply agree_bind; [apply agree_emit|]. intros _.
  apply agree_channel_send.
Qed.

(** X15: the startup code of the two scripts agrees as well: the same
    configuration error or the same memo loaded from the same file. *)
Theorem mains_agree (ARGUMENTS : Arguments) :
  agree (Bot.main ARGUMENTS) (RedeemCode.main ARGUMENTS).
Proof.
  unfold Bot.main, RedeemCode.main.
  destruct (discord_token ARGUMENTS).
  - destruct (discord_channel ARGUMENTS).
    + apply agree_bind; [apply agree_path_exists|]. intros present.
      apply agree_bind.
      * destruct present; [|apply agree_ret].
        apply agree_bind; [apply agree_read_file|]. intros data.
        apply agree_memo_update.
      * intros _. apply agree_bind; [apply agree_read_memo|]. intros memo.
        apply agree_emit.
    + apply agree_bind; [apply agree_emit|]. intros _. apply agree_raise.
  - apply agree_bind; [apply agree_emit|]. intros _. apply agree_raise.
Qed.

(** ** One cycle of bot.py *)

Lemma bot_cycle_run (ARGUMENTS : Arguments) (OUTSIDE : Outside) (r : Response)
    (t : Node) (channel : string) (w : World) :
  fetch_channel OUTSIDE (discord_channel ARGUMENTS) = Return channel ->
  session_get OUTSIDE (wiki_url ARGUMENTS) = Return r ->
  ~ (400 <= status_code r < 600)%Z ->
  select "table" "redeemcode" (BeautifulSoup OUTSIDE (content r)) = [t] ->
  match get_redeem_codes_cases LOGGER ARGUMENTS t (logged LOGGER INFO Attempting w) with
  | (Return added, w1) =>
      exists w',
        Bot.fetch_and_send_codes ARGUMENTS OUTSIDE w = (Return tt, w') /\
        CODE_MEMO w' = CODE_MEMO w1 /\ files w' = files w1 /\
        sent w' = sent w1 ++ announcement channel added
  | (Raise e, w1) => Bot.fetch_and_send_codes ARGUMENTS OUTSIDE w = (Raise e, w1)
  end.
Proof.
  intros Hch Hget Hs Hsel.
  destruct (get_redeem_codes_cases _ _ _ _) as [[added|e] w1] eqn:Hcases;
    unfold Bot.fetch_and_send_codes;
    (unfold bind at 1; cbn [emit]; fold (logged LOGGER INFO Attempting w));
    (unfold bind at 1; unfold lift; rewrite Hch);
    (unfold bind at 1; rewrite (table_parser_run OUTSIDE _ r) by done; rewrite Hsel);
    (unfold bind at 1; rewrite bot_cases, Hcases); [|done].
  destruct added as [|c added]; run; eexists; repeat split.
  by rewrite app_nil_r.
Qed.

(** X16: when the channel and the page are fetched and the page holds
    exactly one table of the marker class, well formed, the cycle
    returns, leaves the memo equal to the set of extracted codes, and
    sends exactly one message, listing the added codes in table order, to
    the fetched channel when some code is new, and no message at all
    when none is. *)
Theorem cycle_announces_new_codes (ARGUMENTS : Arguments) (OUTSIDE : Outside)
    (r : Response) (t : Node) (channel : string) (rows : list Node) (N : nat)
    (w : World) :
  fetch_channel OUTSIDE (discord_channel ARGUMENTS) = Return channel ->
  session_get OUTSIDE (wiki_url ARGUMENTS) = Return r ->
  ~ (400 <= status_code r < 600)%Z ->
  select "table" "redeemcode" (BeautifulSoup OUTSIDE (content r)) = [t] ->
  find_all "tr" t = Some rows ->
  well_formed rows N ->
  exists w',
    Bot.fetch_and_send_codes ARGUMENTS OUTSIDE w = (Return tt, w') /\
    CODE_MEMO w' = list_to_set (extracted_codes rows) /\
    sent w'
    = sent w
      ++ announcement channel
           (filter (fun c => c ∉ CODE_MEMO w) (extracted_codes rows)).
Proof.
  intros Hch Hget Hs Hsel Hrows [Hlen Hcode].
  pose proof (bot_cycle_run ARGUMENTS OUTSIDE r t channel w Hch Hget Hs Hsel) as Hrun.
  rewrite (well_formed_run _ ARGUMENTS t rows N) in Hrun by done.
  destruct Hrun as (w' & Hrun & Hm & _ & Hsent). exists w'. by repeat split.
Qed.

Lemma cycle_announces_new_codes_witness :
  exists w',
    Bot.fetch_and_send_codes Sample.ARGUMENTS
      (Sample.outside
         (Sample.page
            [Sample.table
               (Sample.heading :: Sample.entry "ZZZ" ++ Sample.entry "MMM"
                  ++ Sample.entry "AAA")]))
      (Sample.world ["MMM"]) = (Return tt, w') /\
    CODE_MEMO w'
    = list_to_set
        (extracted_codes
           (Sample.heading :: Sample.entry "ZZZ" ++ Sample.entry "MMM"
              ++ Sample.entry "AAA")) /\
    sent w'
    = sent (Sample.world ["MMM"])
      ++ announcement "channel"
           (filter (fun c => c ∉ CODE_MEMO (Sample.world ["MMM"]))
              (extracted_codes
                 (Sample.heading :: Sample.entry "ZZZ" ++ Sample.entry "MMM"
                    ++ Sample.entry "AAA"))).
Proof.
  apply (cycle_announces_new_codes Sample.ARGUMENTS
           (Sample.outside
              (Sample.page
                 [Sample.table
                    (Sample.heading :: Sample.entry "ZZZ" ++ Sample.entry "MMM"
                       ++ Sample.entry "AAA")]))
           Sample.response
           (Sample.table
              (Sample.heading :: Sample.entry "ZZZ" ++ Sample.entry "MMM"
                 ++ Sample.entry "AAA"))
           "channel"
           (Sample.heading :: Sample.entry "ZZZ" ++ Sample.entry "MMM"
              ++ Sample.entry "AAA")
           3 (Sample.world ["MMM"])).
  - reflexivity.
  - reflexivity.
  - simpl. lia.
  - reflexivity.
  - reflexivity.
  - split; [reflexivity|repeat constructor].
Defined.

(** X17: two cycles in a row against an unchanged page: the second one
    returns, sends nothing and leaves the memo as the first one left
    it. *)
Theorem second_cycle_is_silent (ARGUMENTS : Arguments) (OUTSIDE : Outside)
    (r : Response) (t : Node) (channel : string) (rows : list Node) (N : nat)
    (w : World) :
  fetch_channel OUTSIDE (discord_channel ARGUMENTS) = Return channel ->
  session_get OUTSIDE (wiki_url ARGUMENTS) = Return r ->
  ~ (400 <= status_code r < 600)%Z ->
  select "table" "redeemcode" (BeautifulSoup OUTSIDE (content r)) = [t] ->
  find_all "tr" t = Some rows ->
  well_formed rows N ->
  exists w1 w2,
    Bot.fetch_and_send_codes ARGUMENTS OUTSIDE w = (Return tt, w1) /\
    Bot.fetch_and_send_codes ARGUMENTS OUTSIDE w1 = (Return tt, w2) /\
    sent w2 = sent w1 /\
    CODE_MEMO w2 = CODE_MEMO w1.
Proof.
  intros Hch Hget Hs Hsel Hrows [Hlen Hcode].
  pose proof (bot_cycle_run ARGUMENTS OUTSIDE r t channel w Hch Hget Hs Hsel) as Hrun1.
  rewrite (well_formed_run _ ARGUMENTS t rows N) in Hrun1 by done.
  destruct Hrun1 as (w1 & Hrun1 & Hm1 & _ & _). simpl in Hm1.
  pose proof (bot_cycle_run ARGUMENTS OUTSIDE r t channel w1 Hch Hget Hs Hsel) as Hrun2.
  rewrite (well_formed_run _ ARGUMENTS t rows N) in Hrun2 by done.
  destruct Hrun2 as (w2 & Hrun2 & Hm2 & _ & Hsent2). simpl in Hm2, Hsent2.
  exists w1, w2. repeat split; try done; [|congruence].
  rewrite Hsent2, filter_none; [by rewrite app_nil_r|].
  intros c Hc Hnew. apply Hnew. rewrite Hm1. by apply elem_of_list_to_set.
Qed.

Lemma second_cycle_is_silent_witness :
  exists w1 w2,
    Bot.fetch_and_send_codes Sample.ARGUMENTS
      (Sample.outside
         (Sample.page [Sample.table (Sample.heading :: Sample.entry "ABC123")]))
      (Sample.world []) = (Return tt, w1) /\
    Bot.fetch_and_send_codes Sample.ARGUMENTS
      (Sample.outside
         (Sample.page [Sample.table (Sample.heading :: Sample.entry "ABC123")]))
      w1 = (Return tt, w2) /\
    sent w2 = sent w1 /\
    CODE_MEMO w2 = CODE_MEMO w1.
Proof.
  apply (second_cycle_is_silent Sample.ARGUMENTS
           (Sample.outside
              (Sample.page [Sample.table (Sample.heading :: Sample.entry "ABC123")]))
           Sample.response
           (Sample.table (Sample.heading :: Sample.entry "ABC123"))
           "channel" (Sample.heading :: Sample.entry "ABC123") 1 (Sample.world [])).
  - reflexivity.
  - reflexivity.
  - simpl. lia.
  - reflexivity.
  - reflexivity.
  - split; [reflexivity|repeat constructor].
Defined.

(** X18: when the one table of the page is not well formed, the cycle
    stops with the [ValueError] of [get_redeem_codes]: nothing is sent
    and the memo and the files are as before the cycle. *)
Theorem cycle_fails_on_malformed_table (ARGUMENTS : Arguments) (OUTSIDE : Outside)
    (r : Response) (t : Node) (channel : string) (rows : list Node) (w : World) :
  fetch_channel OUTSIDE (discord_channel ARGUMENTS) = Return channel ->
  session_get OUTSIDE (wiki_url ARGUMENTS) = Return r ->
  ~ (400 <= status_code r < 600)%Z ->
  select "table" "redeemcode" (BeautifulSoup OUTSIDE (content r)) = [t] ->
  find_all "tr" t = Some rows ->
  (forall N, ~ well_formed rows N) ->
  exists e w',
    Bot.fetch_and_send_codes ARGUMENTS OUTSIDE w = (Raise e, w') /\
    (e = ValueError (ExpectedRows t) \/ e = ValueError (InvalidData t)) /\
    same_state w' w.
Proof.
  intros Hch Hget Hs Hsel Hrows Hbad.
  pose proof (bot_cycle_run ARGUMENTS OUTSIDE r t channel w Hch Hget Hs Hsel) as Hrun.
  destruct (get_redeem_codes_cases _ _ _ _) as [[added|e] w1] eqn:Hcases.
  - apply cases_return_inv in Hcases as (rows' & N & Hrows' & Hwf & _).
    rewrite Hrows in Hrows'. inversion Hrows'; subst. by destruct (Hbad N).
  - apply cases_raise_inv in Hcases as (Hkind & msg & -> & ->).
    exists (ValueError msg), (logged LOGGER ERROR msg (logged LOGGER INFO Attempting w)).
    by repeat split.
Qed.

Lemma cycle_fails_on_malformed_table_witness :
  exists e w',
    Bot.fetch_and_send_codes Sample.ARGUMENTS
      (Sample.outside (Sample.page [Sample.header_only_table]))
      (Sample.world ["OLD000"]) = (Raise e, w') /\
    (e = ValueError (ExpectedRows Sample.header_only_table) \/
     e = ValueError (InvalidData Sample.header_only_table)) /\
    same_state w' (Sample.world ["OLD000"]).
Proof.
  apply (cycle_fails_on_malformed_table Sample.ARGUMENTS
           (Sample.outside (Sample.page [Sample.header_only_table]))
           Sample.response Sample.header_only_table "channel"
           [Sample.heading; Sample.tr_header_only "Code";
            Sample.tr "Rewards" "Gem x10"; Sample.tr "Dates" "Jan 1-31"]
           (Sample.world ["OLD000"])).
  - reflexivity.
  - reflexivity.
  - simpl. lia.
  - reflexivity.
  - reflexivity.
  - intros N [_ Hcode]. inversion Hcode as [|? ? Hg _]. discriminate Hg.
Defined.

(** ** The table parser, case by case *)

Lemma table_parser_cases (OUTSIDE : Outside) (url : string) (w : World) :
  Bot.get_redeem_code_table OUTSIDE url w
  = match session_get OUTSIDE url with
    | Raise e => (Raise e, w)
    | Return r =>
        if ((400 <=? status_code r) && (status_code r <? 600))%Z
        then (Raise (HTTPError (status_code r)), w)
        else
          match select "table" "redeemcode" (BeautifulSoup OUTSIDE (content r)) with
          | [t] => (Return t, w)
          | _ =>
              (Raise (ValueError (UnexpectedItems (content r))),
               logged LOGGER ERROR (UnexpectedItems (content r)) w)
          end
    end.
Proof.
  unfold Bot.get_redeem_code_table. unfold bind at 1. unfold lift.
  destruct (session_get OUTSIDE url) as [r|e]; [|done].
  unfold bind at 1. unfold raise_for_status.
  destruct (_ && _); [done|].
  destruct (select _ _ _) as [|t [|t' l]]; by run.
Qed.

Lemma status_range (s : Z) :
  ((400 <=? s) && (s <? 600))%Z = true <-> (400 <= s < 600)%Z.
Proof. rewrite andb_true_iff, Z.leb_le, Z.ltb_lt. done. Qed.

(** X19: transport errors pass through unlogged: when the HTTP session
    raises, or the response has a 4xx or 5xx status (so that
    [raise_for_status] raises [HTTPError]), [get_redeem_code_table] of
    either script raises that error before the page is parsed, logs
    nothing and changes nothing; the cycle stops with the same error
    after its start record, without sending, with memo and files as they
    were. *)
Theorem transport_errors_pass_through (ARGUMENTS : Arguments) (OUTSIDE : Outside)
    (w : World) (e : Exception) :
  (session_get OUTSIDE (wiki_url ARGUMENTS) = Raise e \/
   exists r,
     session_get OUTSIDE (wiki_url ARGUMENTS) = Return r /\
     (400 <= status_code r < 600)%Z /\
     e = HTTPError (status_code r)) ->
  Bot.get_redeem_code_table OUTSIDE (wiki_url ARGUMENTS) w = (Raise e, w) /\
  RedeemCode.get_redeem_code_table OUTSIDE (wiki_url ARGUMENTS) w = (Raise e, w) /\
  forall channel,
    fetch_channel OUTSIDE (discord_channel ARGUMENTS) = Return channel ->
    Bot.fetch_and_send_codes ARGUMENTS OUTSIDE w
    = (Raise e, logged LOGGER INFO Attempting w) /\
    same_state (logged LOGGER INFO Attempting w) w.
Proof.
  intros Hfail.
  assert (Hbot : forall w0,
    Bot.get_redeem_code_table OUTSIDE (wiki_url ARGUMENTS) w0 = (Raise e, w0)).
  { intros w0. rewrite table_parser_cases.
    destruct Hfail as [->|(r & -> & Hs & ->)]; [done|].
    by rewrite (proj2 (status_range _) Hs). }
  split; [apply Hbot|]. split.
  - unfold RedeemCode.get_redeem_code_table. unfold bind at 1. unfold lift.
    destruct Hfail as [->|(r & -> & Hs & ->)]; [done|].
    unfold bind at 1. unfold raise_for_status.
    by rewrite (proj2 (status_range _) Hs).
  - intros channel Hch. split; [|done]. unfold Bot.fetch_and_send_codes.
    unfold bind at 1. cbn [emit]. fold (logged LOGGER INFO Attempting w).
    unfold bind at 1. unfold lift. rewrite Hch.
    unfold bind at 1. by rewrite Hbot.
Qed.

Lemma transport_errors_pass_through_witness :
  Bot.get_redeem_code_table unavailable_wiki (wiki_url Sample.ARGUMENTS)
    (Sample.world ["OLD000"])
  = (Raise (HTTPError 503), Sample.world ["OLD000"]) /\
  RedeemCode.get_redeem_code_table unavailable_wiki (wiki_url Sample.ARGUMENTS)
    (Sample.world ["OLD000"])
  = (Raise (HTTPError 503), Sample.world ["OLD000"]) /\
  forall channel,
    fetch_channel unavailable_wiki (discord_channel Sample.ARGUMENTS) = Return channel ->
    Bot.fetch_and_send_codes Sample.ARGUMENTS unavailable_wiki (Sample.world ["OLD000"])
    = (Raise (HTTPError 503), logged LOGGER INFO Attempting (Sample.world ["OLD000"])) /\
    same_state (logged LOGGER INFO Attempting (Sample.world ["OLD000"]))
      (Sample.world ["OLD000"]).
Proof.
  apply (transport_errors_pass_through Sample.ARGUMENTS unavailable_wiki
           (Sample.world ["OLD000"]) (HTTPError 503)).
  right. exists {| status_code := 503; content := "busy" |}.
  split; [reflexivity|]. split; [simpl; lia|reflexivity].
Defined.

Lemma filter_true_of {A} (f : A -> bool) (l : list A) (x : A) :
  x ∈ List.filter f l -> x ∈ l /\ f x = true.
Proof.
  intros Hx. apply list_elem_of_In, filter_In in Hx as [Hin Hf].
  split; [by apply list_elem_of_In|done].
Qed.

(** X20: what the table parser returns is an element of the parsed page,
    a [table] tag whose classes include [redeemcode], and the only such
    element of the page; returning it changes nothing. *)
Theorem parser_returns_the_marked_table (OUTSIDE : Outside) (url : string)
    (w : World) (t : Node) (w' : World) :
  Bot.get_redeem_code_table OUTSIDE url w = (Return t, w') ->
  w' = w /\
  exists r,
    session_get OUTSIDE url = Return r /\
    select "table" "redeemcode" (BeautifulSoup OUTSIDE (content r)) = [t] /\
    t ∈ descendants (BeautifulSoup OUTSIDE (content r)) /\
    (exists class_ contents, t = Tag "table" class_ contents /\ "redeemcode" ∈ class_).
Proof.
  rewrite table_parser_cases.
  destruct (session_get OUTSIDE url) as [r|e0]; [|discriminate].
  destruct (_ && _); [discriminate|].
  destruct (select _ _ _) as [|t0 [|t' l]] eqn:Hsel; try discriminate.
  intros Heq. inversion Heq; subst. split; [done|]. exists r.
  assert (Hin : t ∈ select "table" "redeemcode" (BeautifulSoup OUTSIDE (content r))).
  { rewrite Hsel. by left. }
  apply filter_true_of in Hin as [Hin Hf]. apply andb_prop in Hf as [Htag Hcls].
  repeat split; try done.
  destruct t as [s|name class_ contents]; [done|].
  simpl in Htag, Hcls. apply bool_decide_eq_true_1 in Htag as ->.
  apply bool_decide_eq_true_1 in Hcls. eauto.
Qed.

Lemma parser_returns_the_marked_table_witness :
  Sample.world [] = Sample.world [] /\
  exists r,
    session_get
      (Sample.outside
         (Sample.page [Sample.table (Sample.heading :: Sample.entry "ABC123")]))
      (wiki_url Sample.ARGUMENTS) = Return r /\
    select "table" "redeemcode"
      (BeautifulSoup
         (Sample.outside
            (Sample.page [Sample.table (Sample.heading :: Sample.entry "ABC123")]))
         (content r))
    = [Sample.table (Sample.heading :: Sample.entry "ABC123")] /\
    Sample.table (Sample.heading :: Sample.entry "ABC123")
    ∈ descendants
        (BeautifulSoup
           (Sample.outside
              (Sample.page [Sample.table (Sample.heading :: Sample.entry "ABC123")]))
           (content r)) /\
    (exists class_ contents,
       Sample.table (Sample.heading :: Sample.entry "ABC123")
       = Tag "table" class_ contents /\ "redeemcode" ∈ class_).
Proof.
  apply (parser_returns_the_marked_table
           (Sample.outside
              (Sample.page [Sample.table (Sample.heading :: Sample.entry "ABC123")]))
           (wiki_url Sample.ARGUMENTS) (Sample.world [])).
  reflexivity.
Defined.

(** ** Startup *)

Lemma main_run (ARGUMENTS : Arguments) (w : World) :
  is_Some (discord_token ARGUMENTS) ->
  is_Some (discord_channel ARGUMENTS) ->
  exists w',
    Bot.main ARGUMENTS w = (Return tt, w') /\
    files w' = files w /\ sent w' = sent w /\
    CODE_MEMO w'
    = CODE_MEMO w
      ∪ match files w !! memo_filename ARGUMENTS with
        | Some data => loaded_codes (Py.universal_newlines data)
        | None => ∅
        end.
Proof.
  intros [token Htoken] [channel Hchannel].
  unfold Bot.main. rewrite Htoken, Hchannel.
  unfold bind at 1. unfold path_exists.
  destruct (files w !! memo_filename ARGUMENTS) as [data|] eqn:Hfile.
  - rewrite bool_decide_eq_true_2 by eauto.
    unfold bind at 1. unfold bind at 1. unfold read_file. rewrite Hfile. run.
    eexists. by repeat split.
  - rewrite bool_decide_eq_false_2 by (by intros [? ?]). run.
    eexists. repeat split. simpl. by rewrite (right_id_L ∅ (∪)).
Qed.

(** X21: without a bot token, or with a token but without a channel id,
    [main] logs the matching message at fatal level and raises it as a
    [ValueError]; the token is checked first, and the memo file is not
    read: memo, files and channel stay as they were. *)
Theorem main_requires_token_and_channel (ARGUMENTS : Arguments) (w : World) :
  discord_token ARGUMENTS = None \/ discord_channel ARGUMENTS = None ->
  exists msg,
    Bot.main ARGUMENTS w = (Raise (ValueError msg), logged LOGGER FATAL msg w) /\
    (discord_token ARGUMENTS = None -> msg = NoToken) /\
    (is_Some (discord_token ARGUMENTS) -> msg = NoChannel) /\
    same_state (logged LOGGER FATAL msg w) w.
Proof.
  intros Hmissing. unfold Bot.main.
  destruct (discord_token ARGUMENTS) as [token|].
  - destruct (discord_channel ARGUMENTS) as [channel|].
    + by destruct Hmissing.
    + exists NoChannel. by repeat split.
  - exists NoToken. repeat split; try done.
Qed.

Lemma main_requires_token_and_channel_witness :
  exists msg,
    Bot.main
      {| wiki_url := "https://wiki"; discord_token := None; discord_channel := None;
         memo_filename := "redeem-codes.txt" |}
      (world_with_file Sample.ARGUMENTS "ABC123")
    = (Raise (ValueError msg),
       logged LOGGER FATAL msg (world_with_file Sample.ARGUMENTS "ABC123")) /\
    (discord_token
       {| wiki_url := "https://wiki"; discord_token := None; discord_channel := None;
          memo_filename := "redeem-codes.txt" |} = None -> msg = NoToken) /\
    (is_Some
       (discord_token
          {| wiki_url := "https://wiki"; discord_token := None;
             discord_channel := None; memo_filename := "redeem-codes.txt" |}) ->
     msg = NoChannel) /\
    same_state (logged LOGGER FATAL msg (world_with_file Sample.ARGUMENTS "ABC123"))
      (world_with_file Sample.ARGUMENTS "ABC123").
Proof.
  apply (main_requires_token_and_channel
           {| wiki_url := "https://wiki"; discord_token := None;
              discord_channel := None; memo_filename := "redeem-codes.txt" |}
           (world_with_file Sample.ARGUMENTS "ABC123")).
  left. reflexivity.
Defined.

(** X22: with a token and a channel id, [main] starts up without a memo
    file, leaving memo, files and channel as they are; and whenever its
    startup completes, the files and the channel are untouched and the
    memo is the old memo plus the non-empty lines of the memo file, if
    there is one. *)
Theorem main_loads_the_memo_file (ARGUMENTS : Arguments) (w : World) :
  is_Some (discord_token ARGUMENTS) ->
  is_Some (discord_channel ARGUMENTS) ->
  (files w !! memo_filename ARGUMENTS = None ->
   exists w', Bot.main ARGUMENTS w = (Return tt, w') /\ same_state w' w) /\
  (forall w', Bot.main ARGUMENTS w = (Return tt, w') ->
     files w' = files w /\ sent w' = sent w /\
     forall data, files w !! memo_filename ARGUMENTS = Some data ->
       forall c, c ∈ CODE_MEMO w' <->
         c ∈ CODE_MEMO w \/
         (c <> EmptyString /\ c ∈ Py.splitlines (Py.universal_newlines data))).
Proof.
  intros Htoken Hchannel.
  destruct (main_run ARGUMENTS w Htoken Hchannel) as (w1 & Hmain & Hf & Hs & Hm).
  split.
  - intros Hnone. exists w1. split; [done|].
    rewrite Hnone, (right_id_L ∅ (∪)) in Hm. by repeat split.
  - intros w' Hrun. rewrite Hmain in Hrun. inversion Hrun; subst w'.
    split; [done|]. split; [done|].
    intros data Hdata c. rewrite Hm, Hdata. unfold loaded_codes.
    rewrite elem_of_union, elem_of_list_to_set. split.
    + intros [?|Hc]; [by left|right].
      apply list_elem_of_In, filter_In in Hc as [Hin Hne].
      apply negb_true_iff, String.eqb_neq in Hne.
      split; [done|by apply list_elem_of_In].
    + intros [?|[Hne Hin]]; [by left|right].
      apply list_elem_of_In, filter_In. split; [by apply list_elem_of_In|].
      by apply negb_true_iff, String.eqb_neq.
Qed.

Lemma main_loads_the_memo_file_witness :
  (files (world_with_file Sample.ARGUMENTS "ABC123")
     !! memo_filename Sample.ARGUMENTS = None ->
   exists w',
     Bot.main Sample.ARGUMENTS (world_with_file Sample.ARGUMENTS "ABC123")
     = (Return tt, w') /\
     same_state w' (world_with_file Sample.ARGUMENTS "ABC123")) /\
  (forall w',
     Bot.main Sample.ARGUMENTS (world_with_file Sample.ARGUMENTS "ABC123")
     = (Return tt, w') ->
     files w' = files (world_with_file Sample.ARGUMENTS "ABC123") /\
     sent w' = sent (world_with_file Sample.ARGUMENTS "ABC123") /\
     forall data,
       files (world_with_file Sample.ARGUMENTS "ABC123")
         !! memo_filename Sample.ARGUMENTS = Some data ->
       forall c, c ∈ CODE_MEMO w' <->
         c ∈ CODE_MEMO (world_with_file Sample.ARGUMENTS "ABC123") \/
         (c <> EmptyString /\ c ∈ Py.splitlines (Py.universal_newlines data))).
Proof.
  apply (main_loads_the_memo_file Sample.ARGUMENTS
           (world_with_file Sample.ARGUMENTS "ABC123")).
  - simpl. eauto.
  - simpl. eauto.
Defined.

(** A first start, with no memo file, and a start with a memo file. *)
Example main_first_start :
  Bot.main Sample.ARGUMENTS (Sample.world [])
  = (Return tt, logged LOGGER INFO (Started ∅) (Sample.world [])).
Proof. reflexivity. Qed.

Example main_start_with_file :
  CODE_MEMO (Bot.main Sample.ARGUMENTS (world_with_file Sample.ARGUMENTS "ABC123")).2
  = {[ "ABC123" ]}.
Proof. apply (bool_decide_unpack _). vm_compute. exact I. Qed.

Lemma universal_newlines_app (x s : string) :
  no_CR x = true ->
  Py.universal_newlines (x +:+ s) = x +:+ Py.universal_newlines s.
Proof.
  induction x as [|c x IH]; [done|]. simpl.
  intros [Hc Hx]%andb_prop. apply negb_true_iff in Hc.
  rewrite !app_cons. cbn [Py.universal_newlines]. by rewrite Hc, IH.
Qed.

Lemma universal_newlines_CRLF (lines : list string) :
  Forall (fun l => no_linebreak l = true) lines ->
  Py.universal_newlines (Py.join CRLF_sep lines) = Py.join LF_sep lines.
Proof.
  induction lines as [|x lines IH]; intros Hl; [done|].
  inversion Hl as [|? ? Hx Hl']; subst.
  apply no_linebreak_no_CR in Hx.
  destruct lines as [|y lines].
  - cbn [Py.join]. by apply universal_newlines_id.
  - change (Py.join CRLF_sep (x :: y :: lines))
      with (x +:+ CRLF_sep +:+ Py.join CRLF_sep (y :: lines)).
    change (Py.join LF_sep (x :: y :: lines))
      with (x +:+ LF_sep +:+ Py.join LF_sep (y :: lines)).
    rewrite universal_newlines_app by done.
    unfold CRLF_sep at 1. rewrite !app_cons, app_empty_l.
    change (Py.universal_newlines
              (String (ascii_of_N 13)
                 (String Py.LF (Py.join CRLF_sep (y :: lines)))))
      with (String Py.LF (Py.universal_newlines (Py.join CRLF_sep (y :: lines)))).
    by rewrite IH.
Qed.

Lemma splitlines_blank_lines (lines : list string) :
  Forall (fun l => no_linebreak l = true) lines ->
  List.filter (fun i => negb (String.eqb i EmptyString))
    (Py.splitlines (Py.join LF_sep lines))
  = List.filter (fun i => negb (String.eqb i EmptyString)) lines.
Proof.
  unfold Py.splitlines.
  induction lines as [|x lines IH]; intros Hl; [done|].
  inversion Hl as [|? ? Hx Hl']; subst.
  destruct lines as [|y lines].
  - cbn [Py.join].
    transitivity
      (List.filter (fun i => negb (String.eqb i EmptyString))
         (Py.splitlines_from EmptyString (x +:+ EmptyString)));
      [by rewrite app_empty_r|].
    rewrite splitlines_from_app by done. by destruct x.
  - change (Py.join LF_sep (x :: y :: lines))
      with (x +:+ LF_sep +:+ Py.join LF_sep (y :: lines)).
    rewrite splitlines_from_app by done.
    unfold LF_sep at 1. rewrite app_cons, splitlines_from_LF, !app_empty_l.
    cbn [List.filter]. by rewrite IH.
Qed.

Lemma no_linebreak_lines_no_CR (lines : list string) :
  Forall (fun l => no_linebreak l = true) lines ->
  Forall (fun c => no_CR c = true) lines.
Proof.
  intros Hl. eapply Forall_impl; [exact Hl|]. intros l. apply no_linebreak_no_CR.
Qed.

(** X23: a memo file edited by hand loads as expected: for lines without
    line boundaries inside, separated by LF or by CR LF, with blank lines
    anywhere (so also a trailing newline), a new process loads exactly
    the set of the non-empty lines. *)
Theorem main_ignores_blank_lines (ARGUMENTS : Arguments) (w : World)
    (lines : list string) (sep : string) :
  is_Some (discord_token ARGUMENTS) ->
  is_Some (discord_channel ARGUMENTS) ->
  Forall (fun l => no_linebreak l = true) lines ->
  sep = LF_sep \/ sep = CRLF_sep ->
  files w !! memo_filename ARGUMENTS = Some (Py.join sep lines) ->
  exists w',
    Bot.main ARGUMENTS (restart w) = (Return tt, w') /\
    CODE_MEMO w'
    = list_to_set (List.filter (fun i => negb (String.eqb i EmptyString)) lines).
Proof.
  intros Htoken Hchannel Hlines Hsep Hfile.
  destruct (main_reloads ARGUMENTS w _ Htoken Hchannel Hfile) as (w' & Hmain & Hm).
  exists w'. split; [done|]. rewrite Hm.
  assert (Hread : Py.universal_newlines (Py.join sep lines) = Py.join LF_sep lines).
  { destruct Hsep as [->| ->].
    - apply universal_newlines_id, no_CR_join. by apply no_linebreak_lines_no_CR.
    - by apply universal_newlines_CRLF. }
  by rewrite Hread, splitlines_blank_lines.
Qed.

Lemma main_ignores_blank_lines_witness :
  exists w',
    Bot.main Sample.ARGUMENTS
      (restart
         (world_with_file Sample.ARGUMENTS
            (Py.join CRLF_sep ["ZZZ"; EmptyString; "AAA"; EmptyString])))
    = (Return tt, w') /\
    CODE_MEMO w'
    = list_to_set
        (List.filter (fun i => negb (String.eqb i EmptyString))
           ["ZZZ"; EmptyString; "AAA"; EmptyString]).
Proof.
  apply (main_ignores_blank_lines Sample.ARGUMENTS
           (world_with_file Sample.ARGUMENTS
              (Py.join CRLF_sep ["ZZZ"; EmptyString; "AAA"; EmptyString]))
           ["ZZZ"; EmptyString; "AAA"; EmptyString] CRLF_sep).
  - simpl. eauto.
  - simpl. eauto.
  - repeat constructor.
  - right. reflexivity.
  - reflexivity.
Defined.


